(** * dep_cache_proxy_server: the request orchestrator and the /v1/cache endpoint

    A shallow embedding of [application/handle_cache_request.py] (class
    [HandleCacheRequest]) and of the [cache_dependencies] endpoint of
    [interfaces/api.py].

    Python dictionaries are finite maps ([gmap]), [bytes] are lists of bytes,
    [Optional] values are options.  Calls on the collaborators (the cache
    repository, the scratch directory, the installers) are threaded through a
    small state/exception monad that also records them in a trace, so that the
    order and the arguments of those calls can be stated. *)

From Stdlib Require Import String Ascii List Bool Sorted Lia.
From stdpp Require Import base option list gmap strings fin_maps.

Import ListNotations.
Local Open Scope string_scope.
Local Open Scope list_scope.

(** ** Python values *)

Abbreviation bytes := (list Byte.byte).

(** A [Dict[str, str]] of role names (or keyword names) to version strings. *)
Abbreviation Versions := (gmap string string).

(** A directory as the files it holds, by name. *)
Abbreviation Dir := (gmap string bytes).

(** [b"..."] *)
Definition b (s : string) : bytes := String.list_byte_of_string s.

(** Truth value of a [bytes] or [str] object: non-empty. *)
Definition truthy_bytes (c : bytes) : bool :=
  match c with [] => false | _ :: _ => true end.

Definition truthy_str (s : string) : bool :=
  match s with EmptyString => false | String _ _ => true end.

(** Truth value of an [Optional[str]]: present and non-empty. *)
Definition truthy_opt_str (o : option string) : bool :=
  match o with None => false | Some s => truthy_str s end.

(** Truth value of an [Optional] object without [__bool__] or [__len__]. *)
Definition truthy_obj {A : Type} (o : option A) : bool :=
  match o with None => false | Some _ => true end.

(** [str(x)] of an [Optional[str]] inside an f-string. *)
Definition str_opt (o : option string) : string :=
  match o with None => "None" | Some s => s end.

(** ** DTOs and domain objects ([application/dtos.py], [domain/dependency_set.py]) *)

Record CacheRequest := {
  manager : string;
  versions : Versions;
  lockfile_content : bytes;
  manifest_content : bytes;
  custom_args : option (list string)
}.

Record CacheResponse := {
  bundle_hash : string;
  download_url : string;
  is_cache_hit : bool
}.

Record FileData := {
  fd_relative_path : string;
  fd_content : bytes
}.

Record InstallationResult := {
  success : bool;
  files : list FileData;
  error_message : option string
}.

Record DependencyFile := {
  relative_path : string;
  content : bytes
}.

(** The fields are those the orchestrator passes to the constructor and reads
    back: [manager], [files] and the three optional version keywords. *)
Record DependencySet := {
  ds_manager : string;
  ds_files : list DependencyFile;
  node_version : option string;
  npm_version : option string;
  php_version : option string
}.

(** [DependencySet(manager=..., files=..., **kwargs)] *)
Definition DependencySet_init (manager : string) (files : list DependencyFile)
    (kwargs : Versions) : DependencySet :=
  {| ds_manager := manager;
     ds_files := files;
     node_version := kwargs !! "node_version";
     npm_version := kwargs !! "npm_version";
     php_version := kwargs !! "php_version" |}.

(** ** [HandleCacheRequest._get_version_kwargs] *)

Definition _get_version_kwargs (manager : string) (versions : Versions) : Versions :=
  let kwargs : Versions := ∅ in
  if String.eqb manager "npm" || String.eqb manager "yarn" then
    let kwargs :=
      match versions !! "node" with
      | Some v => <["node_version" := v]> kwargs
      | None =>
          match versions !! "runtime" with
          | Some v => <["node_version" := v]> kwargs
          | None => kwargs
          end
      end in
    match versions !! "npm" with
    | Some v => <["npm_version" := v]> kwargs
    | None =>
        match versions !! "yarn" with
        | Some v => <["npm_version" := v]> kwargs
        | None =>
            match versions !! "package_manager" with
            | Some v => <["npm_version" := v]> kwargs
            | None => kwargs
            end
        end
    end
  else if String.eqb manager "composer" then
    match versions !! "php" with
    | Some v => <["php_version" := v]> kwargs
    | None =>
        match versions !! "runtime" with
        | Some v => <["php_version" := v]> kwargs
        | None => kwargs
        end
    end
  else kwargs.

(** ** Collaborators

    [domain/installer.py], [infrastructure/docker_utils.py] and
    [infrastructure/file_system_cache_repository.py] are not among the source
    files.  An installer and the Docker helper run external programs: they are
    records of what the orchestrator reads from them, and every statement below
    holds for all of them.  [install] and [install_with_docker] see the scratch
    directory as it stands when they are called. *)

Record Installer := {
  manifest_name : string;
  lockfile_name : string;
  install : Dir -> InstallationResult
}.

Record InstallerFactory := {
  create_installer : string -> Versions -> option (list string) -> Installer
}.

Record DockerUtils := {
  is_available : bool;
  install_with_docker :
    Dir -> string -> Versions -> option (list string) -> InstallationResult
}.

(** *** The cache repository *)

(** Modelled from the spec: the JSON document of a bundle at
    [indexes/<bundle_id>.json], with the four fields of the index. *)
Record Index := {
  ix_bundle_hash : string;
  ix_manager : string;
  ix_manager_version : string;
  ix_files : gmap string string
}.

(** Modelled from the spec: the on-disk state of the repository, its three
    directories [blobs/], [indexes/] and [bundles/] (an archive is held as its
    entries, logical path to content). *)
Record FileSystemCacheRepository := {
  blobs : gmap string bytes;
  indexes : gmap string Index;
  bundles : gmap string (gmap string bytes)
}.

Definition empty_repository : FileSystemCacheRepository :=
  {| blobs := ∅; indexes := ∅; bundles := ∅ |}.

(** Modelled from the spec: [FileSystemCacheRepository.get_index], the
    [load(bundle_id) → index | missing] of the index store. *)
Definition get_index (repo : FileSystemCacheRepository) (bundle_hash : string)
    : option Index :=
  indexes repo !! bundle_hash.

(** Modelled from the spec: [FileSystemCacheRepository.has_bundle], true iff
    both the index and the materialized archive exist. *)
Definition has_bundle (repo : FileSystemCacheRepository) (bundle_hash : string)
    : bool :=
  truthy_obj (indexes repo !! bundle_hash) && truthy_obj (bundles repo !! bundle_hash).

(** Modelled from the spec: [FileSystemCacheRepository.store_blob], the
    idempotent put of the blob store: a blob already at that address stays. *)
Definition store_blob (file_hash : string) (content : bytes)
    (repo : FileSystemCacheRepository) : FileSystemCacheRepository :=
  match blobs repo !! file_hash with
  | Some _ => repo
  | None =>
      {| blobs := <[file_hash := content]> (blobs repo);
         indexes := indexes repo;
         bundles := bundles repo |}
  end.

(** Modelled from the spec: [FileSystemCacheRepository.save_index], which
    writes the document of the bundle at [indexes/<bundle_id>.json]. *)
Definition save_index (bundle_hash manager manager_version : string)
    (index_data : gmap string string) (repo : FileSystemCacheRepository)
    : FileSystemCacheRepository :=
  {| blobs := blobs repo;
     indexes :=
       <[bundle_hash := {| ix_bundle_hash := bundle_hash;
                           ix_manager := manager;
                           ix_manager_version := manager_version;
                           ix_files := index_data |}]> (indexes repo);
     bundles := bundles repo |}.

(** Every blob an index refers to resolves in the blob store. *)
Definition blobs_resolve (repo : FileSystemCacheRepository)
    (index_data : gmap string string) : bool :=
  forallb (fun entry => truthy_obj (blobs repo !! entry.2)) (map_to_list index_data).

(** Modelled from the spec: [FileSystemCacheRepository.generate_bundle_zip],
    the [build(bundle_id)] of the archiver: it reads the index of the bundle
    and the blob of each logical path; [None] is a storage fault (no index, or
    a blob that is missing). *)
Definition generate_bundle_zip (bundle_hash : string)
    (repo : FileSystemCacheRepository) : option FileSystemCacheRepository :=
  match indexes repo !! bundle_hash with
  | None => None
  | Some index =>
      if blobs_resolve repo (ix_files index) then
        Some {| blobs := blobs repo;
                indexes := indexes repo;
                bundles :=
                  <[bundle_hash := omap (fun h => blobs repo !! h) (ix_files index)]>
                    (bundles repo) |}
      else None
  end.

(** ** Effects: exceptions, the trace of collaborator calls, the monad *)

Inductive Exn :=
| ValueError (msg : string)
| RuntimeError (msg : string)
| StorageFault (msg : string).

Inductive Event :=
| ECalculateBundleHash (dep_set : DependencySet)
| EGetIndex (bundle_hash : string)
| EHasBundle (bundle_hash : string)
| EStoreBlob (file_hash : string) (content : bytes)
| ESaveIndex (bundle_hash manager manager_version : string)
    (index_data : gmap string string)
| EGenerateBundleZip (bundle_hash : string)
| EMkdtemp
| EWriteBytes (name : string) (content : bytes)
| EInstall (work_dir : Dir)
| EInstallWithDocker (work_dir : Dir)
| ERmtree.

Record Outcome (A : Type) := mkOutcome {
  result : Exn + A;
  repository : FileSystemCacheRepository;
  trace : list Event
}.
Arguments mkOutcome {A} _ _ _.
Arguments result {A} _.
Arguments repository {A} _.
Arguments trace {A} _.

(** A computation reads and updates the repository, may raise, and logs. *)
Definition M (A : Type) : Type := FileSystemCacheRepository -> Outcome A.

Definition ret {A} (a : A) : M A := fun repo => mkOutcome (inr a) repo [].

Definition raise {A} (e : Exn) : M A := fun repo => mkOutcome (inl e) repo [].

Definition bind {A B} (m : M A) (k : A -> M B) : M B := fun repo =>
  let o := m repo in
  match result o with
  | inl e => mkOutcome (inl e) (repository o) (trace o)
  | inr a =>
      let o' := k a (repository o) in
      mkOutcome (result o') (repository o') (trace o ++ trace o')
  end.

(** [try: m finally: cleanup] *)
Definition finally {A} (m : M A) (cleanup : M unit) : M A := fun repo =>
  let o := m repo in
  let o' := cleanup (repository o) in
  match result o' with
  | inl e => mkOutcome (inl e) (repository o') (trace o ++ trace o')
  | inr _ => mkOutcome (result o) (repository o') (trace o ++ trace o')
  end.

Definition emit (e : Event) : M unit := fun repo => mkOutcome (inr tt) repo [e].

Definition lift {A} (r : Exn + A) : M A := fun repo => mkOutcome r repo [].

(** The monad structure, with stdpp's [x ← m; k] and [m;; k]. *)
#[global] Instance M_ret : MRet M := @ret.
#[global] Instance M_bind : MBind M := fun A B k m => bind m k.

(** The repository calls, logged. *)
Definition call_get_index (bundle_hash : string) : M (option Index) := fun repo =>
  mkOutcome (inr (get_index repo bundle_hash)) repo [EGetIndex bundle_hash].

Definition call_has_bundle (bundle_hash : string) : M bool := fun repo =>
  mkOutcome (inr (has_bundle repo bundle_hash)) repo [EHasBundle bundle_hash].

Definition call_store_blob (file_hash : string) (content : bytes) : M unit := fun repo =>
  mkOutcome (inr tt) (store_blob file_hash content repo) [EStoreBlob file_hash content].

Definition call_save_index (bundle_hash manager manager_version : string)
    (index_data : gmap string string) : M unit := fun repo =>
  mkOutcome (inr tt) (save_index bundle_hash manager manager_version index_data repo)
    [ESaveIndex bundle_hash manager manager_version index_data].

Definition call_generate_bundle_zip (bundle_hash : string) : M unit := fun repo =>
  match generate_bundle_zip bundle_hash repo with
  | Some repo' => mkOutcome (inr tt) repo' [EGenerateBundleZip bundle_hash]
  | None =>
      mkOutcome (inl (StorageFault ("cannot build bundle " ++ bundle_hash))) repo
        [EGenerateBundleZip bundle_hash]
  end.

(** [(temp_dir / name).write_bytes(content)] *)
Definition write_bytes (temp_dir : Dir) (name : string) (content : bytes) : M Dir :=
  emit (EWriteBytes name content);; mret (<[name := content]> temp_dir).

(** ** The orchestrator: [class HandleCacheRequest]

    The object holds its collaborators and its policy; the repository it
    shares with the endpoint is the state of [M]. *)

Record HandleCacheRequest := {
  installer_factory : InstallerFactory;
  docker_utils : option DockerUtils;
  supported_versions : gmap string (list Versions);
  use_docker_on_version_mismatch : bool
}.

(** *** [_is_version_supported] *)

(** The block that converts the request versions to the expected format. *)
Definition normalized_versions (manager : string) (versions : Versions) : Versions :=
  let normalized : Versions := ∅ in
  if String.eqb manager "npm" || String.eqb manager "yarn" then
    let normalized :=
      match versions !! "node" with
      | Some v => <["runtime" := v]> normalized
      | None =>
          match versions !! "runtime" with
          | Some v => <["runtime" := v]> normalized
          | None => normalized
          end
      end in
    match versions !! "npm" with
    | Some v => <["package_manager" := v]> normalized
    | None =>
        match versions !! "yarn" with
        | Some v => <["package_manager" := v]> normalized
        | None =>
            match versions !! "package_manager" with
            | Some v => <["package_manager" := v]> normalized
            | None => normalized
            end
        end
    end
  else if String.eqb manager "composer" then
    match versions !! "php" with
    | Some v => <["runtime" := v]> normalized
    | None =>
        match versions !! "runtime" with
        | Some v => <["runtime" := v]> normalized
        | None => normalized
        end
    end
  else versions.

(** The inner loop, [for key in supported.keys()]: the value of [match] when
    the loop ends or breaks. *)
Fixpoint entry_matches (items : list (string * string)) (normalized : Versions) : bool :=
  match items with
  | [] => true
  | (key, value) :: rest =>
      match normalized !! key with
      | None => false
      | Some v =>
          if negb (String.eqb value v) then false
          else entry_matches rest normalized
      end
  end.

(** The outer loop, [for supported in supported_list], and the final
    [return False]. *)
Fixpoint first_match (supported_list : list Versions) (normalized : Versions) : bool :=
  match supported_list with
  | [] => false
  | supported :: rest =>
      if entry_matches (map_to_list supported) normalized then true
      else first_match rest normalized
  end.

Definition _is_version_supported (self : HandleCacheRequest)
    (manager : string) (versions : Versions) : bool :=
  match supported_versions self !! manager with
  | None => true
  | Some supported_list =>
      match supported_list with
      | [] => true
      | _ :: _ => first_match supported_list (normalized_versions manager versions)
      end
  end.

(** *** [_determine_installation_method] *)

Definition _determine_installation_method (self : HandleCacheRequest)
    (manager : string) (versions : Versions) : Exn + string :=
  if _is_version_supported self manager versions then inr "native"
  else if use_docker_on_version_mismatch self
          && truthy_obj (docker_utils self)
          && match docker_utils self with
             | Some docker => is_available docker
             | None => false
             end
  then inr "docker"
  else inl (ValueError ("Unsupported " ++ manager ++ " version and Docker is not available")).

(** *** [_install_natively], [_install_with_docker] *)

Definition _install_natively (self : HandleCacheRequest) (request : CacheRequest)
    : M InstallationResult :=
  emit EMkdtemp;;
  let temp_dir : Dir := ∅ in
  finally
    (let installer :=
       create_installer (installer_factory self)
         (manager request) (versions request) (custom_args request) in
     temp_dir ← write_bytes temp_dir (manifest_name installer) (manifest_content request);
     temp_dir ←
       (if truthy_bytes (lockfile_content request)
        then write_bytes temp_dir (lockfile_name installer) (lockfile_content request)
        else mret temp_dir);
     emit (EInstall temp_dir);;
     mret (install installer temp_dir))
    (emit ERmtree).

Definition _install_with_docker (self : HandleCacheRequest) (request : CacheRequest)
    : M InstallationResult :=
  match docker_utils self with
  | None =>
      mret {| success := false;
              files := [];
              error_message := Some "Docker utils not available" |}
  | Some docker =>
      emit EMkdtemp;;
      let temp_dir : Dir := ∅ in
      finally
        (let installer :=
           create_installer (installer_factory self)
             (manager request) (versions request) (custom_args request) in
         temp_dir ← write_bytes temp_dir (manifest_name installer) (manifest_content request);
         temp_dir ←
           (if truthy_bytes (lockfile_content request)
            then write_bytes temp_dir (lockfile_name installer) (lockfile_content request)
            else mret temp_dir);
         emit (EInstallWithDocker temp_dir);;
         mret (install_with_docker docker temp_dir
                 (manager request) (versions request) (custom_args request)))
        (emit ERmtree)
  end.

Section Orchestrator.

  (** [DependencySet.calculate_bundle_hash] ([domain/dependency_set.py]) and
      [hashlib.new(HASH_ALGORITHM)] followed by [update] and [hexdigest]
      ([domain/hash_constants.py]) are not among the source files: any two
      functions stand for them. *)
Variable calculate_bundle_hash : DependencySet -> string.
Variable hexdigest : bytes -> string.

  (** *** [_calculate_bundle_hash] *)

Definition _calculate_bundle_hash (self : HandleCacheRequest) (request : CacheRequest)
      : M string :=
    let files : list DependencyFile := [] in
    let installer :=
      create_installer (installer_factory self)
        (manager request) (versions request) (custom_args request) in
    let files :=
      if truthy_bytes (lockfile_content request)
      then files ++ [ {| relative_path := lockfile_name installer;
                         content := lockfile_content request |} ]
      else files in
    let files :=
      files ++ [ {| relative_path := manifest_name installer;
                    content := manifest_content request |} ] in
    let dep_set :=
      DependencySet_init (manager request) files
        (_get_version_kwargs (manager request) (versions request)) in
    emit (ECalculateBundleHash dep_set);;
    mret (calculate_bundle_hash dep_set).

  (** *** [_store_dependency_set] *)

  (** The loop over [dependency_set.files]: each blob is stored and entered in
      [index_data]. *)
Fixpoint store_files (files : list DependencyFile) (index_data : gmap string string)
      : M (gmap string string) :=
    match files with
    | [] => mret index_data
    | file :: rest =>
        let file_hash := hexdigest (content file) in
        call_store_blob file_hash (content file);;
        store_files rest (<[relative_path file := file_hash]> index_data)
    end.

  (** The block that extracts the manager version info. *)
Definition manager_version_of (dependency_set : DependencySet) : string :=
    let manager := ds_manager dependency_set in
    if String.eqb manager "npm" then
      let node_ver := node_version dependency_set in
      let npm_ver := npm_version dependency_set in
      if truthy_opt_str node_ver && truthy_opt_str npm_ver
      then str_opt node_ver ++ "_" ++ str_opt npm_ver
      else "unknown"
    else if String.eqb manager "composer" then
      let php_ver := php_version dependency_set in
      if truthy_opt_str php_ver then str_opt php_ver else "unknown"
    else "unknown".

Definition _store_dependency_set (dependency_set : DependencySet) (bundle_hash : string)
      : M unit :=
    index_data ← store_files (ds_files dependency_set) ∅;
    let manager := ds_manager dependency_set in
    let manager_version := manager_version_of dependency_set in
    call_save_index bundle_hash manager manager_version index_data;;
    call_generate_bundle_zip bundle_hash.

  (** *** [handle] *)

Definition handle (self : HandleCacheRequest) (request : CacheRequest)
      : M CacheResponse :=
    request_hash ← _calculate_bundle_hash self request;
    index_data ← call_get_index request_hash;
    hit ← (if truthy_obj index_data then call_has_bundle request_hash else mret false);
    if hit : bool then
      mret {| bundle_hash := request_hash;
              download_url := "/download/" ++ request_hash ++ ".zip";
              is_cache_hit := true |}
    else
      installation_method ←
        lift (_determine_installation_method self (manager request) (versions request));
      installation_result ←
        (if String.eqb installation_method "docker"
         then _install_with_docker self request
         else _install_natively self request);
      if negb (success installation_result) then
        raise (RuntimeError
                 ("Installation failed: " ++ str_opt (error_message installation_result)))
      else
        let dep_files :=
          map (fun file => {| relative_path := fd_relative_path file;
                              content := fd_content file |})
              (files installation_result) in
        let dependency_set :=
          DependencySet_init (manager request) dep_files
            (_get_version_kwargs (manager request) (versions request)) in
        _store_dependency_set dependency_set request_hash;;
        mret {| bundle_hash := request_hash;
                download_url := "/download/" ++ request_hash ++ ".zip";
                is_cache_hit := false |}.

End Orchestrator.

(** ** The endpoint: [POST /v1/cache] of [interfaces/api.py] *)

(** [Config], as stored by its constructor. *)
Record Config := {
  cache_dir : string;
  cfg_supported_versions : gmap string (list Versions);
  cfg_use_docker_on_version_mismatch : bool;
  is_public : bool;
  api_keys : list string;
  base_url : string
}.

Record CacheResponseDTO := {
  dto_download_url : string;
  cache_hit : bool
}.

Inductive HTTPException :=
| mkHTTPException (status_code : nat) (detail : string).

Definition status_of (e : HTTPException) : nat :=
  match e with mkHTTPException status_code _ => status_code end.

(** An uploaded part: [UploadFile.filename] is optional. *)
Record UploadFile := {
  filename : option string;
  body : bytes
}.

(** The form fields of the request. *)
Record Form := {
  form_manager : string;
  form_hash : string;
  form_versions : string;
  form_file : list UploadFile;
  form_custom_args : option string
}.

(** The module globals [config], [cache_repository] and [docker_utils]. *)
Record App := {
  config : option Config;
  cache_repository : option FileSystemCacheRepository;
  app_docker_utils : option DockerUtils
}.

(** What the client gets, the repository afterwards, and the calls made. *)
Record HttpOutcome := {
  response : HTTPException + CacheResponseDTO;
  repository_after : option FileSystemCacheRepository;
  http_trace : list Event
}.

(** [str.lower], on ASCII letters. *)
Definition lower_ascii (c : ascii) : ascii :=
  let n := nat_of_ascii c in
  if Nat.leb 65 n && Nat.leb n 90 then ascii_of_nat (n + 32) else c.

Fixpoint lower (s : string) : string :=
  match s with
  | EmptyString => EmptyString
  | String c rest => String (lower_ascii c) (lower rest)
  end.

(** [needle in hay], on strings. *)
Fixpoint contains (needle hay : string) : bool :=
  if String.prefix needle hay then true
  else match hay with
       | EmptyString => false
       | String _ rest => contains needle rest
       end.

Definition manifest_names (manager : string) : option string :=
  if String.eqb manager "npm" then Some "package.json"
  else if String.eqb manager "yarn" then Some "package.json"
  else if String.eqb manager "composer" then Some "composer.json"
  else None.

Definition lockfile_names (manager : string) : option string :=
  if String.eqb manager "npm" then Some "package-lock.json"
  else if String.eqb manager "yarn" then Some "yarn.lock"
  else if String.eqb manager "composer" then Some "composer.lock"
  else None.

Definition opt_eqb (s : string) (o : option string) : bool :=
  match o with Some s' => String.eqb s s' | None => false end.

Definition opt_in (o : option string) (s : string) : bool :=
  match o with Some s' => truthy_str s' && contains s' s | None => false end.

(** The loop over the uploaded files; [inl] is the exception raised by
    [.lower()] on a part without a filename. *)
Fixpoint read_files (file : list UploadFile) (manifest_name lockfile_name : option string)
    (manifest_content lockfile_content : option bytes)
    : string + (option bytes * option bytes) :=
  match file with
  | [] => inr (manifest_content, lockfile_content)
  | uploaded_file :: rest =>
      match filename uploaded_file with
      | None => inl "'NoneType' object has no attribute 'lower'"
      | Some name =>
          let filename := lower name in
          let content := body uploaded_file in
          if opt_eqb filename manifest_name then
            read_files rest manifest_name lockfile_name (Some content) lockfile_content
          else if opt_eqb filename lockfile_name then
            read_files rest manifest_name lockfile_name manifest_content (Some content)
          else if opt_in manifest_name filename then
            read_files rest manifest_name lockfile_name (Some content) lockfile_content
          else if opt_in lockfile_name filename then
            read_files rest manifest_name lockfile_name manifest_content (Some content)
          else
            read_files rest manifest_name lockfile_name manifest_content lockfile_content
      end
  end.

Definition truthy_opt_bytes (o : option bytes) : bool :=
  match o with None => false | Some c => truthy_bytes c end.

Section Endpoint.

Variable calculate_bundle_hash : DependencySet -> string.
Variable hexdigest : bytes -> string.

  (** [InstallerFactory()] *)
Variable InstallerFactory_new : InstallerFactory.

  (** [json.loads] on the [versions] field: [None] is a [JSONDecodeError];
      a document that decodes is taken to be an object of strings, as
      [CacheRequest.versions] is typed. *)
Variable json_loads_versions : string -> option Versions.

  (** [json.loads] on the [custom_args] field: [inl msg] is a
      [JSONDecodeError], [inr None] a document that is not an array. *)
Variable json_loads_custom_args : string -> string + option (list string).

  (** The body of the endpoint up to the construction of the [CacheRequest]:
      the parsing and validation of the form fields. *)
Definition read_request (form : Form) : HTTPException + CacheRequest :=
    match json_loads_versions (form_versions form) with
    | None => inl (mkHTTPException 400 "Invalid versions JSON")
    | Some versions_dict =>
        let parsed_args : HTTPException + option (list string) :=
          match form_custom_args form with
          | None => inr None
          | Some custom_args =>
              if truthy_str custom_args then
                match json_loads_custom_args custom_args with
                | inl msg => inl (mkHTTPException 400 ("Invalid custom_args: " ++ msg))
                | inr None =>
                    inl (mkHTTPException 400
                           "Invalid custom_args: custom_args must be a JSON array")
                | inr (Some l) => inr (Some l)
                end
              else inr None
          end in
        match parsed_args with
        | inl e => inl e
        | inr custom_args_list =>
            let manager := form_manager form in
            if negb (String.eqb manager "npm" || String.eqb manager "composer"
                     || String.eqb manager "yarn") then
              inl (mkHTTPException 400 ("Unsupported manager: " ++ manager))
            else
              match form_file form with
              | [] => inl (mkHTTPException 400 "No files provided")
              | _ :: _ =>
                  let manifest_name := manifest_names manager in
                  let lockfile_name := lockfile_names manager in
                  match read_files (form_file form) manifest_name lockfile_name None None with
                  | inl msg => inl (mkHTTPException 400 ("Error reading files: " ++ msg))
                  | inr (manifest_content, lockfile_content) =>
                      if negb (truthy_opt_bytes manifest_content) then
                        inl (mkHTTPException 400
                               ("Error reading files: Missing required manifest file: "
                                ++ str_opt manifest_name))
                      else
                        let lockfile_content :=
                          if negb (truthy_opt_bytes lockfile_content) then []
                          else default [] lockfile_content in
                        inr {| manager := manager;
                               versions := versions_dict;
                               lockfile_content := lockfile_content;
                               manifest_content := default [] manifest_content;
                               custom_args := custom_args_list |}
                  end
              end
        end
    end.

  (** [str(e)] *)
Definition str_exn (e : Exn) : string :=
    match e with
    | ValueError msg => msg
    | RuntimeError msg => msg
    | StorageFault msg => msg
    end.

Definition cache_dependencies (app : App) (form : Form) : HttpOutcome :=
    match config app, cache_repository app with
    | Some config, Some cache_repository =>
        match read_request form with
        | inl e =>
            {| response := inl e;
               repository_after := Some cache_repository;
               http_trace := [] |}
        | inr cache_request =>
            let handler :=
              {| installer_factory := InstallerFactory_new;
                 docker_utils := app_docker_utils app;
                 supported_versions := cfg_supported_versions config;
                 use_docker_on_version_mismatch :=
                   cfg_use_docker_on_version_mismatch config |} in
            let o :=
              handle calculate_bundle_hash hexdigest handler cache_request
                cache_repository in
            {| response :=
                 match result o with
                 | inr response =>
                     inr {| dto_download_url := base_url config ++ download_url response;
                            cache_hit := is_cache_hit response |}
                 | inl (ValueError msg) => inl (mkHTTPException 400 msg)
                 | inl e =>
                     inl (mkHTTPException 500 ("Internal server error: " ++ str_exn e))
                 end;
               repository_after := Some (repository o);
               http_trace := trace o |}
        end
    | _, _ =>
        {| response := inl (mkHTTPException 500 "Server not properly configured");
           repository_after := cache_repository app;
           http_trace := [] |}
    end.

End Endpoint.

(** ** A concrete world

    The scenarios of the specification, on an installer registry with the
    file-name conventions of the endpoint, an installer that produces the one
    file [node_modules/x/index.js], and transparent stand-ins for the two hash
    functions.  The general statements below hold for every world; this one
    is where they are evaluated. *)

Module Scenario.

  (** A fingerprint that spells out every field of the dependency set. *)
Definition fingerprint (d : DependencySet) : string :=
    ds_manager d ++ "|" ++ str_opt (node_version d) ++ "|" ++ str_opt (npm_version d)
    ++ "|" ++ str_opt (php_version d) ++ "|"
    ++ String.concat ","
         (map (fun f => (relative_path f ++ "=" ++ String.string_of_list_byte (content f))%string)
              (ds_files d)).

  (** A digest that spells out the content. *)
Definition digest (c : bytes) : string := String.string_of_list_byte c.

Definition installer (manager : string) : Installer :=
    {| manifest_name := default "manifest" (manifest_names manager);
       lockfile_name := default "lockfile" (lockfile_names manager);
       install := fun _ =>
         {| success := true;
            files := [ {| fd_relative_path := "node_modules/x/index.js";
                          fd_content := b "ok" |} ];
            error_message := None |} |}.

Definition factory : InstallerFactory :=
    {| create_installer := fun manager _ _ => installer manager |}.

Definition docker : DockerUtils :=
    {| is_available := true;
       install_with_docker := fun _ _ _ _ =>
         {| success := true;
            files := [ {| fd_relative_path := "node_modules/x/index.js";
                          fd_content := b "ok" |} ];
            error_message := None |} |}.

Definition node_npm : Versions :=
    <["node" := "20.0.0"]> (<["npm" := "10.0.0"]> ∅).

Definition runtime_package_manager : Versions :=
    <["runtime" := "20.0.0"]> (<["package_manager" := "10.0.0"]> ∅).

Definition node_yarn : Versions :=
    <["node" := "20.0.0"]> (<["yarn" := "1.22.0"]> ∅).

Definition request (manager : string) (versions : Versions) (lockfile : bytes)
      : CacheRequest :=
    {| manager := manager;
       versions := versions;
       lockfile_content := lockfile;
       manifest_content := b "{}";
       custom_args := None |}.

  (** Scenario (c): the support list [[{runtime: 18.0.0, package_manager: 9.0.0}]]. *)
Definition only_18_9 : gmap string (list Versions) :=
    <["npm" := [ <["runtime" := "18.0.0"]> (<["package_manager" := "9.0.0"]> ∅) ]]> ∅.

Definition handler (supported : gmap string (list Versions))
      (docker_utils : option DockerUtils) (use_docker : bool) : HandleCacheRequest :=
    {| installer_factory := factory;
       docker_utils := docker_utils;
       supported_versions := supported;
       use_docker_on_version_mismatch := use_docker |}.

  (** An index left behind without its archive. *)
Definition stale_repository (bundle_hash : string) : FileSystemCacheRepository :=
    save_index bundle_hash "npm" "20.0.0_10.0.0" ∅ empty_repository.

  (** The text of the [versions] form field, and a decoder for it. *)
Definition dq : string := String (ascii_of_nat 34) EmptyString.

Definition versions_text : string :=
    "{" ++ dq ++ "node" ++ dq ++ ": " ++ dq ++ "20.0.0" ++ dq ++ ", "
        ++ dq ++ "npm" ++ dq ++ ": " ++ dq ++ "10.0.0" ++ dq ++ "}".

Definition loads_versions (text : string) : option Versions :=
    if String.eqb text versions_text then Some node_npm else None.

Definition loads_custom_args (text : string) : string + option (list string) :=
    if String.eqb text "[]" then inr (Some []) else inl "Expecting value".

Definition form (hash : string) : Form :=
    {| form_manager := "npm";
       form_hash := hash;
       form_versions := versions_text;
       form_file := [ {| filename := Some "package.json"; body := b "{}" |} ];
       form_custom_args := None |}.

Definition configuration (supported : gmap string (list Versions)) (use_docker : bool)
    : Config :=
  {| cache_dir := "/var/cache/dep";
     cfg_supported_versions := supported;
     cfg_use_docker_on_version_mismatch := use_docker;
     is_public := true;
     api_keys := [];
     base_url := "http://localhost:8000" |}.

Definition app (supported : gmap string (list Versions)) (use_docker : bool) : App :=
  {| config := Some (configuration supported use_docker);
     cache_repository := Some empty_repository;
     app_docker_utils := None |}.

End Scenario.

(** * Specification-level notions *)

(** The bundle id an event carries, for the events that carry one. *)
Definition bundle_id_of (e : Event) : option string :=
  match e with
  | EGetIndex h | EHasBundle h | ESaveIndex h _ _ _ | EGenerateBundleZip h => Some h
  | _ => None
  end.

Definition is_hash_computation (e : Event) : bool :=
  match e with ECalculateBundleHash _ => true | _ => false end.

(** Events of the install step: scratch directory and installer calls. *)
Definition is_install_event (e : Event) : bool :=
  match e with
  | EMkdtemp | EWriteBytes _ _ | EInstall _ | EInstallWithDocker _ | ERmtree => true
  | _ => false
  end.

(** Events that write to the repository. *)
Definition is_storage_event (e : Event) : bool :=
  match e with
  | EStoreBlob _ _ | ESaveIndex _ _ _ _ | EGenerateBundleZip _ => true
  | _ => false
  end.

(** Index and archive of a bundle are both present. *)
Definition cached (repo : FileSystemCacheRepository) (bundle_hash : string) : Prop :=
  is_Some (indexes repo !! bundle_hash) ∧ is_Some (bundles repo !! bundle_hash).

Section StorageNotions.

Variable hexdigest : bytes -> string.

Definition blob_event (file : DependencyFile) : Event :=
  EStoreBlob (hexdigest (content file)) (content file).

(** The [index_data] the loop builds, and the blob store it leaves. *)
Definition index_of (files : list DependencyFile) (index_data : gmap string string)
    : gmap string string :=
  fold_left (fun acc file => <[relative_path file := hexdigest (content file)]> acc)
    files index_data.

Definition store_all (files : list DependencyFile) (repo : FileSystemCacheRepository)
    : FileSystemCacheRepository :=
  fold_left (fun r file => store_blob (hexdigest (content file)) (content file) r)
    files repo.

End StorageNotions.


(** The scratch directory as the install step stages it: the manifest, and
    the lockfile when it is not empty. *)
Definition staged (installer : Installer) (request : CacheRequest) : Dir :=
  let work_dir : Dir := <[manifest_name installer := manifest_content request]> ∅ in
  if truthy_bytes (lockfile_content request)
  then <[lockfile_name installer := lockfile_content request]> work_dir
  else work_dir.

Definition staging_writes (installer : Installer) (request : CacheRequest) : list Event :=
  EWriteBytes (manifest_name installer) (manifest_content request)
  :: (if truthy_bytes (lockfile_content request)
      then [EWriteBytes (lockfile_name installer) (lockfile_content request)]
      else []).

(** The installer the registry resolves for a request. *)
Definition installer_of (self : HandleCacheRequest) (request : CacheRequest) : Installer :=
  create_installer (installer_factory self)
    (manager request) (versions request) (custom_args request).

(** The dependency set a request declares: its lockfile when there is one,
    its manifest, and its versions. *)
Definition declared_set (self : HandleCacheRequest) (request : CacheRequest)
    : DependencySet :=
  let installer := installer_of self request in
  DependencySet_init (manager request)
    ((if truthy_bytes (lockfile_content request)
      then [ {| relative_path := lockfile_name installer;
                content := lockfile_content request |} ]
      else [])
     ++ [ {| relative_path := manifest_name installer;
             content := manifest_content request |} ])
    (_get_version_kwargs (manager request) (versions request)).

(** The dependency set stored for a request after an install. *)
Definition installed_set (request : CacheRequest) (installation_result : InstallationResult)
    : DependencySet :=
  DependencySet_init (manager request)
    (map (fun file => {| relative_path := fd_relative_path file;
                         content := fd_content file |})
         (files installation_result))
    (_get_version_kwargs (manager request) (versions request)).

(** The isolation fallback is enabled and available. *)
Definition isolation (self : HandleCacheRequest) : bool :=
  use_docker_on_version_mismatch self
  && match docker_utils self with
     | Some docker => is_available docker
     | None => false
     end.

Definition unsupported_message (manager : string) : string :=
  "Unsupported " ++ manager ++ " version and Docker is not available".

(** What the install step returns and logs, by method. *)
Definition install_result (self : HandleCacheRequest) (request : CacheRequest)
    (method : string) : InstallationResult :=
  let installer := installer_of self request in
  if String.eqb method "docker" then
    match docker_utils self with
    | None => {| success := false; files := [];
                 error_message := Some "Docker utils not available" |}
    | Some docker =>
        install_with_docker docker (staged installer request)
          (manager request) (versions request) (custom_args request)
    end
  else install installer (staged installer request).

Definition install_trace (self : HandleCacheRequest) (request : CacheRequest)
    (method : string) : list Event :=
  let installer := installer_of self request in
  if String.eqb method "docker" then
    match docker_utils self with
    | None => []
    | Some _ =>
        EMkdtemp :: staging_writes installer request
        ++ [EInstallWithDocker (staged installer request); ERmtree]
    end
  else
    EMkdtemp :: staging_writes installer request
    ++ [EInstall (staged installer request); ERmtree].

Section OrchestratorNotions.

Variable calculate_bundle_hash : DependencySet -> string.

(** The bundle id of a request: the fingerprint of what it declares. *)
Definition bundle_id (self : HandleCacheRequest) (request : CacheRequest) : string :=
  calculate_bundle_hash (declared_set self request).

(** The calls of the cache probe. *)
Definition probe_trace (self : HandleCacheRequest) (request : CacheRequest)
    (repo : FileSystemCacheRepository) : list Event :=
  [ECalculateBundleHash (declared_set self request);
   EGetIndex (bundle_id self request)]
  ++ (if truthy_obj (indexes repo !! bundle_id self request)
      then [EHasBundle (bundle_id self request)]
      else []).

Definition response_for (bundle_hash : string) (hit : bool) : CacheResponse :=
  {| bundle_hash := bundle_hash;
     download_url := "/download/" ++ bundle_hash ++ ".zip";
     is_cache_hit := hit |}.

End OrchestratorNotions.

(** The phase of a repository write within the storage step. *)
Definition phase (e : Event) : option nat :=
  match e with
  | EStoreBlob _ _ => Some 0
  | ESaveIndex _ _ _ _ => Some 1
  | EGenerateBundleZip _ => Some 2
  | _ => None
  end.

(** Blob writes come first, then index writes, then archive builds. *)
Definition in_store_order (t : list Event) : Prop :=
  StronglySorted le (omap phase t).

Section StoreTraceNotions.

Variable hexdigest : bytes -> string.

(** The calls of the storage step for a dependency set. *)
Definition store_trace (dependency_set : DependencySet) (bundle_hash : string)
    : list Event :=
  map (blob_event hexdigest) (ds_files dependency_set)
  ++ [ESaveIndex bundle_hash (ds_manager dependency_set)
        (manager_version_of dependency_set)
        (index_of hexdigest (ds_files dependency_set) ∅);
      EGenerateBundleZip bundle_hash].

End StoreTraceNotions.

(** The form with another value in its [hash] field. *)
Definition with_hash (form : Form) (hash : string) : Form :=
  {| form_manager := form_manager form;
     form_hash := hash;
     form_versions := form_versions form;
     form_file := form_file form;
     form_custom_args := form_custom_args form |}.

(** A request with another version tuple. *)
Definition with_versions (request : CacheRequest) (versions : Versions) : CacheRequest :=
  {| manager := manager request;
     versions := versions;
     lockfile_content := lockfile_content request;
     manifest_content := manifest_content request;
     custom_args := custom_args request |}.

(** The two spellings of a runtime and package-manager version pair. *)
Definition api_roles (runtime_version package_manager_version : string) : Versions :=
  <["node" := runtime_version]> (<["npm" := package_manager_version]> ∅).

Definition internal_roles (runtime_version package_manager_version : string) : Versions :=
  <["runtime" := runtime_version]> (<["package_manager" := package_manager_version]> ∅).

(** The handler the endpoint builds. *)
Definition handler_of (factory : InstallerFactory) (app : App) (config : Config)
    : HandleCacheRequest :=
  {| installer_factory := factory;
     docker_utils := app_docker_utils app;
     supported_versions := cfg_supported_versions config;
     use_docker_on_version_mismatch := cfg_use_docker_on_version_mismatch config |}.

(** ** The version policy, in the words of the specification *)

(** The policy roles of a manager, each with the request roles that map to it,
    in the order they are listed; [None] where the tuple is taken as it is. *)
Definition role_aliases (manager : string) : option (list (string * list string)) :=
  if String.eqb manager "npm" || String.eqb manager "yarn" then
    Some [("runtime", ["node"; "runtime"]);
          ("package_manager", ["npm"; "yarn"; "package_manager"])]
  else if String.eqb manager "composer" then
    Some [("runtime", ["php"; "runtime"])]
  else None.

(** The value of the first of the aliases that the tuple has. *)
Fixpoint first_present (aliases : list string) (versions : Versions) : option string :=
  match aliases with
  | [] => None
  | role :: rest =>
      match versions !! role with
      | Some value => Some value
      | None => first_present rest versions
      end
  end.

Fixpoint rename_roles (table : list (string * list string)) (versions : Versions)
    : Versions :=
  match table with
  | [] => ∅
  | (role, aliases) :: rest =>
      match first_present aliases versions with
      | Some value => <[role := value]> (rename_roles rest versions)
      | None => rename_roles rest versions
      end
  end.

(** Step 3: the request tuple in the policy schema. *)
Definition normalize_spec (manager : string) (versions : Versions) : Versions :=
  match role_aliases manager with
  | Some table => rename_roles table versions
  | None => versions
  end.

(** Step 4: every key the entry specifies is in the tuple with the same value. *)
Definition entry_matches_spec (entry normalized : Versions) : Prop :=
  forall key value, entry !! key = Some value -> normalized !! key = Some value.

(** Steps 1 to 4. *)
Definition supported_spec (supported_versions : gmap string (list Versions))
    (manager : string) (versions : Versions) : Prop :=
  match supported_versions !! manager with
  | None => True
  | Some [] => True
  | Some supported_list =>
      exists entry,
        entry ∈ supported_list
        /\ entry_matches_spec entry (normalize_spec manager versions)
  end.

(** * The rest of [interfaces/api.py] *)

(** ** [Config.__init__] *)

(** [s.rstrip(c)]: the string without its trailing run of [c]. *)
Fixpoint rstrip (c : ascii) (s : string) : string :=
  match s with
  | EmptyString => EmptyString
  | String a rest =>
      match rstrip c rest with
      | EmptyString => if Ascii.eqb a c then EmptyString else String a EmptyString
      | stripped => String a stripped
      end
  end.

(** [api_keys or []] *)
Definition or_empty (api_keys : option (list string)) : list string :=
  match api_keys with
  | Some (key :: keys) => key :: keys
  | _ => []
  end.

(** Truth value of an [Optional[List[str]]]: present and non-empty. *)
Definition truthy_keys (api_keys : option (list string)) : bool :=
  match api_keys with
  | Some (_ :: _) => true
  | _ => false
  end.

Definition Config_init (cache_dir : string)
    (supported_versions : gmap string (list Versions))
    (use_docker_on_version_mismatch is_public : bool)
    (api_keys : option (list string)) (base_url : string) : Config :=
  {| cache_dir := cache_dir;
     cfg_supported_versions := supported_versions;
     cfg_use_docker_on_version_mismatch := use_docker_on_version_mismatch;
     is_public := is_public;
     api_keys := or_empty api_keys;
     base_url := rstrip "/" base_url |}.

(** ** The module globals, [initialize_app] and [lifespan] *)

(** [infrastructure/api_key_validator.py] is not among the source files: a
    validator is the [validate] method the endpoint calls. *)
Record ApiKeyValidator := {
  validate : string -> bool
}.

Record Globals := {
  g_config : option Config;
  g_cache_repository : option FileSystemCacheRepository;
  g_api_key_validator : option ApiKeyValidator;
  g_docker_utils : option DockerUtils
}.

(** The values the module assigns when it is loaded. *)
Definition fresh_globals : Globals :=
  {| g_config := None;
     g_cache_repository := None;
     g_api_key_validator := None;
     g_docker_utils := None |}.

(** The globals the cache endpoint reads. *)
Definition app_of (g : Globals) : App :=
  {| config := g_config g;
     cache_repository := g_cache_repository g;
     app_docker_utils := g_docker_utils g |}.

Section Startup.

(** [ApiKeyValidator(api_keys)], [FileSystemCacheRepository(Path(cache_dir))]
    (the store found under that directory) and [DockerUtils()]. *)
Variable ApiKeyValidator_new : list string -> ApiKeyValidator.
Variable FileSystemCacheRepository_new : string -> FileSystemCacheRepository.
Variable DockerUtils_new : DockerUtils.

Definition initialize_app (g : Globals) (cache_dir : string)
    (supported_versions : gmap string (list Versions))
    (use_docker_on_version_mismatch is_public : bool)
    (api_keys : option (list string)) (base_url : string) : Globals :=
  let config :=
    Config_init cache_dir supported_versions use_docker_on_version_mismatch
      is_public api_keys base_url in
  let api_key_validator :=
    if negb is_public && truthy_keys api_keys
    then Some (ApiKeyValidator_new (default [] api_keys))
    else g_api_key_validator g in
  {| g_config := Some config;
     g_cache_repository := g_cache_repository g;
     g_api_key_validator := api_key_validator;
     g_docker_utils := g_docker_utils g |}.

(** The startup half of [lifespan]. *)
Definition lifespan_startup (g : Globals) : Globals :=
  match g_config g with
  | Some config =>
      {| g_config := g_config g;
         g_cache_repository := Some (FileSystemCacheRepository_new (cache_dir config));
         g_api_key_validator := g_api_key_validator g;
         g_docker_utils := Some DockerUtils_new |}
  | None => g
  end.

End Startup.

(** ** [validate_api_key] *)

(** [s.split(" ", 1)[1]]: what follows the first space; [None] is the
    [IndexError] of a string without one. *)
Fixpoint after_first_space (s : string) : option string :=
  match s with
  | EmptyString => None
  | String c rest => if Ascii.eqb c " " then Some rest else after_first_space rest
  end.

(** [None] when the dependency returns, [Some] the exception it raises. *)
Definition validate_api_key (g : Globals) (authorization : option string)
    : option HTTPException :=
  match g_config g with
  | Some config =>
      if negb (is_public config) then
        match g_api_key_validator g with
        | None => Some (mkHTTPException 500 "Server configuration error")
        | Some api_key_validator =>
            if negb (truthy_opt_str authorization) then
              Some (mkHTTPException 401 "Missing Authorization Bearer <APIKEY>")
            else
              let authorization := default "" authorization in
              if negb (String.prefix "Bearer " authorization) then
                Some (mkHTTPException 401
                        "Invalid authorization format. Use Bearer <APIKEY>")
              else
                match after_first_space authorization with
                | None => Some (mkHTTPException 500 "list index out of range")
                | Some api_key =>
                    if negb (validate api_key_validator api_key) then
                      Some (mkHTTPException 401 "Invalid API key")
                    else None
                end
        end
      else None
  | None => None
  end.

(** ** [download_bundle] *)

Record StreamingResponse := {
  chunks : list bytes;
  media_type : string;
  headers : list (string * string)
}.

(** The loop [while chunk := f.read(size): yield chunk] on a file of the
    given bytes; each turn consumes bytes, so as many turns as there are
    bytes, and one more, reach the empty read that ends it. *)
Fixpoint read_chunks (turns size : nat) (data : bytes) : list bytes :=
  match turns with
  | 0 => []
  | S turns =>
      match take size data with
      | [] => []
      | chunk => chunk :: read_chunks turns size (drop size data)
      end
  end.

#[warnings="-abstract-large-number"]
Definition iterfile (data : bytes) : list bytes :=
  read_chunks (S (length data)) 8192 data.

Section Download.

(** The bytes of the ZIP file [generate_bundle_zip] writes for the entries of
    an archive. *)
Variable zip_bytes : gmap string bytes -> bytes.

(** Modelled from the spec: [FileSystemCacheRepository.get_bundle_zip_path]
    followed by [exists] and [open]: the file at [bundles/<bundle_id>.zip],
    or missing. *)
Definition bundle_zip_file (repo : FileSystemCacheRepository) (bundle_hash : string)
    : option bytes :=
  zip_bytes <$> bundles repo !! bundle_hash.

Definition download_bundle (cache_repository : option FileSystemCacheRepository)
    (bundle_hash : string) : HTTPException + StreamingResponse :=
  match cache_repository with
  | None => inl (mkHTTPException 500 "Server not properly configured")
  | Some repo =>
      match bundle_zip_file repo bundle_hash with
      | None => inl (mkHTTPException 404 "Bundle not found")
      | Some data =>
          inr {| chunks := iterfile data;
                 media_type := "application/zip";
                 headers := [("Content-Disposition",
                              ("attachment; filename=" ++ bundle_hash ++ ".zip")%string)] |}
      end
  end.

End Download.

(** * [HandleCacheRequest._collect_files] *)

(** A file system tree: a regular file, or a directory with its entries as
    [os.walk] lists them. *)
#[warnings="-register-all"]
Inductive Node :=
| NFile (content : bytes)
| NDir (entries : list (string * Node)).

(** The [filenames] of one step of [os.walk], each read and entered under its
    path relative to the walked directory. *)
Definition files_of (prefix : string) (entries : list (string * Node)) : list FileData :=
  omap (fun entry =>
          match entry.2 with
          | NFile content =>
              Some {| fd_relative_path := prefix ++ entry.1; fd_content := content |}
          | NDir _ => None
          end)
       entries.

(** [os.walk], top down: the files of a directory, then the walk of each of
    its subdirectories; [prefix] is the path of the directory relative to the
    start, with its trailing separator. *)
Fixpoint walk (prefix : string) (node : Node) : list FileData :=
  match node with
  | NFile _ => []
  | NDir entries =>
      files_of prefix entries
      ++ flat_map (fun entry => walk (prefix ++ entry.1 ++ "/") entry.2) entries
  end.

(** [directory] is what the path leads to, [None] when nothing exists there. *)
Definition _collect_files (directory : option Node) : list FileData :=
  match directory with
  | None => []
  | Some node => walk "" node
  end.

(** A regular file with these bytes lies in the tree at this relative path. *)
Inductive file_at : Node -> string -> bytes -> Prop :=
| file_here entries name content :
    (name, NFile content) ∈ entries ->
    file_at (NDir entries) name content
| file_below entries name sub path content :
    (name, NDir sub) ∈ entries ->
    file_at (NDir sub) path content ->
    file_at (NDir entries) (name ++ "/" ++ path) content.

(** The number of regular files in a tree. *)
Fixpoint count_files (node : Node) : nat :=
  match node with
  | NFile _ => 1
  | NDir entries => list_sum (map (fun entry => count_files entry.2) entries)
  end.

(** * Further notions *)

(** A request with other custom arguments. *)
Definition with_custom_args (request : CacheRequest) (custom_args : option (list string))
    : CacheRequest :=
  {| manager := manager request;
     versions := versions request;
     lockfile_content := lockfile_content request;
     manifest_content := manifest_content request;
     custom_args := custom_args |}.

(** The last of the files stored under a path. *)
Fixpoint last_with_path (path : string) (files : list DependencyFile)
    : option DependencyFile :=
  match files with
  | [] => None
  | file :: rest =>
      match last_with_path path rest with
      | Some later => Some later
      | None => if String.eqb (relative_path file) path then Some file else None
      end
  end.

(** The managers whose roles the orchestrator renames. *)
Definition known_manager (manager : string) : Prop :=
  manager = "npm" \/ manager = "yarn" \/ manager = "composer".

(** A role of the policy schema. *)
Definition policy_role (role : string) : Prop :=
  role = "runtime" \/ role = "package_manager".

(** A part as the endpoint compares it: its name in lower case, its bytes. *)
Definition folded_part (uploaded_file : UploadFile) : option string * bytes :=
  (lower <$> filename uploaded_file, body uploaded_file).

(** The last character of a string. *)
Fixpoint last_char (s : string) : option ascii :=
  match s with
  | EmptyString => None
  | String a EmptyString => Some a
  | String _ rest => last_char rest
  end.

(** [n] times the character [c]. *)
Fixpoint run_of (c : ascii) (n : nat) : string :=
  match n with
  | 0 => EmptyString
  | S n => String c (run_of c n)
  end.

(** More of the concrete world: an installer that fails, an upload with an
    upper-case name, a validator that knows one key. *)
Module Failing.

Definition installer (manager : string) : Installer :=
  {| manifest_name := default "manifest" (manifest_names manager);
     lockfile_name := default "lockfile" (lockfile_names manager);
     install := fun _ =>
       {| success := false; files := []; error_message := Some "npm ERR! code E404" |} |}.

Definition factory : InstallerFactory :=
  {| create_installer := fun manager _ _ => installer manager |}.

End Failing.

Module Uploads.

Definition upper_case_form : Form :=
  {| form_manager := "npm";
     form_hash := "0000";
     form_versions := Scenario.versions_text;
     form_file := [ {| filename := Some "Package.JSON"; body := b "{}" |} ];
     form_custom_args := None |}.

Definition one_key : ApiKeyValidator :=
  {| validate := fun key => String.eqb key "s3cret" |}.

Definition private_config : Config :=
  Config_init "/var/cache/dep" ∅ false false (Some ["s3cret"]) "http://localhost:8000/".

Definition private_globals : Globals :=
  {| g_config := Some private_config;
     g_cache_repository := None;
     g_api_key_validator := Some one_key;
     g_docker_utils := None |}.

Definition validator_of (keys : list string) : ApiKeyValidator :=
  {| validate := fun key => existsb (String.eqb key) keys |}.

Definition zip (entries : gmap string bytes) : bytes :=
  flat_map (fun entry => String.list_byte_of_string entry.1 ++ entry.2)
    (map_to_list entries).

End Uploads.

(** Every chunk but the last has exactly [size] bytes, and the last has at
    least one and at most [size]. *)
Fixpoint full_but_last (size : nat) (chunks : list bytes) : Prop :=
  match chunks with
  | [] => True
  | chunk :: rest =>
      match rest with
      | [] => 0 < length chunk <= size
      | _ :: _ => length chunk = size /\ full_but_last size rest
      end
  end.

(** The size of a read of [iterfile]. *)
#[warnings="-abstract-large-number"]
Definition chunk_size : nat := 8192.

(** ** Storage faults

    Modelled from the spec: any I/O error of the blob store, the index store
    or the archiver propagates as a storage fault, and a write that fails is
    not observed at its target path (temporary file, then rename).  The runs
    above are those on which no such error occurs; here every call to the
    repository may meet one. *)

Module Faulty.

Section Faults.

Variable calculate_bundle_hash : DependencySet -> string.
Variable hexdigest : bytes -> string.

(** [storage_fault repo call] is the message of the I/O error that [call]
    meets when it is made on [repo], if it meets one. *)
Variable storage_fault : FileSystemCacheRepository -> Event -> option string.

(** Modelled from the spec: a repository call that meets an I/O error raises
    the storage fault and leaves the repository as it was. *)
Definition guarded {A} (call : Event) (m : M A) : M A := fun repo =>
  match storage_fault repo call with
  | Some msg => mkOutcome (inl (StorageFault msg)) repo [call]
  | None => m repo
  end.

Definition call_get_index (bundle_hash : string) : M (option Index) :=
  guarded (EGetIndex bundle_hash) (call_get_index bundle_hash).

Definition call_has_bundle (bundle_hash : string) : M bool :=
  guarded (EHasBundle bundle_hash) (call_has_bundle bundle_hash).

Definition call_store_blob (file_hash : string) (content : bytes) : M unit :=
  guarded (EStoreBlob file_hash content) (call_store_blob file_hash content).

Definition call_save_index (bundle_hash manager manager_version : string)
    (index_data : gmap string string) : M unit :=
  guarded (ESaveIndex bundle_hash manager manager_version index_data)
    (call_save_index bundle_hash manager manager_version index_data).

Definition call_generate_bundle_zip (bundle_hash : string) : M unit :=
  guarded (EGenerateBundleZip bundle_hash) (call_generate_bundle_zip bundle_hash).

(** [_store_dependency_set], on these calls. *)
Fixpoint store_files (files : list DependencyFile) (index_data : gmap string string)
    : M (gmap string string) :=
  match files with
  | [] => mret index_data
  | file :: rest =>
      let file_hash := hexdigest (content file) in
      call_store_blob file_hash (content file);;
      store_files rest (<[relative_path file := file_hash]> index_data)
  end.

Definition _store_dependency_set (dependency_set : DependencySet) (bundle_hash : string)
    : M unit :=
  index_data ← store_files (ds_files dependency_set) ∅;
  let manager := ds_manager dependency_set in
  let manager_version := manager_version_of dependency_set in
  call_save_index bundle_hash manager manager_version index_data;;
  call_generate_bundle_zip bundle_hash.

(** [handle], on these calls. *)
Definition handle (self : HandleCacheRequest) (request : CacheRequest)
    : M CacheResponse :=
  request_hash ← _calculate_bundle_hash calculate_bundle_hash self request;
  index_data ← call_get_index request_hash;
  hit ← (if truthy_obj index_data then call_has_bundle request_hash else mret false);
  if hit : bool then
    mret {| bundle_hash := request_hash;
            download_url := "/download/" ++ request_hash ++ ".zip";
            is_cache_hit := true |}
  else
    installation_method ←
      lift (_determine_installation_method self (manager request) (versions request));
    installation_result ←
      (if String.eqb installation_method "docker"
       then _install_with_docker self request
       else _install_natively self request);
    if negb (success installation_result) then
      raise (RuntimeError
               ("Installation failed: " ++ str_opt (error_message installation_result)))
    else
      let dep_files :=
        map (fun file => {| relative_path := fd_relative_path file;
                            content := fd_content file |})
            (files installation_result) in
      let dependency_set :=
        DependencySet_init (manager request) dep_files
          (_get_version_kwargs (manager request) (versions request)) in
      _store_dependency_set dependency_set request_hash;;
      mret {| bundle_hash := request_hash;
              download_url := "/download/" ++ request_hash ++ ".zip";
              is_cache_hit := false |}.

End Faults.

(** No call meets an error. *)
Definition no_fault (repo : FileSystemCacheRepository) (call : Event) : option string :=
  None.

(** The call with these properties meets an error, whatever the repository
    holds. *)
Definition fault_at (failing : Event -> bool) (repo : FileSystemCacheRepository)
    (call : Event) : option string :=
  if failing call then Some "No space left on device" else None.

End Faulty.

(** ** The route [POST /v1/cache]

    What the decorator of [cache_dependencies] and the declarations of its
    parameters add to its body: the [validate_api_key] dependency, and the
    validation of the form fields. *)

(** The form as it arrives: a field may be absent. *)
Record RawForm := {
  raw_manager : option string;
  raw_hash : option string;
  raw_versions : option string;
  raw_file : list UploadFile;
  raw_custom_args : option string
}.

Record HttpRequest := {
  authorization : option string;
  form_data : RawForm
}.

(** The value of a form field: an empty value counts as none, so that a field
    declared [Form(...)] is missing when it is absent or empty, and one
    declared [Form(None)] is [None] then. *)
Definition form_value (field : option string) : option string :=
  match field with
  | Some value => if truthy_str value then Some value else None
  | None => None
  end.

(** The required fields that are missing, in the order of the parameters. *)
Definition missing (name : string) (field : option string) : list string :=
  match form_value field with
  | Some _ => []
  | None => [name]
  end.

Definition missing_fields (raw : RawForm) : list string :=
  missing "manager" (raw_manager raw)
  ++ missing "hash" (raw_hash raw)
  ++ missing "versions" (raw_versions raw)
  ++ (match raw_file raw with [] => ["file"] | _ :: _ => [] end).

(** What the route answers: the exception of the dependency, the validation
    error (status 422) naming the missing fields, or what the body does. *)
Inductive Reply :=
| Refused (e : HTTPException)
| Unprocessable (missing : list string)
| Handled (o : HttpOutcome).

Definition reply_status (r : Reply) : nat :=
  match r with
  | Refused e => status_of e
  | Unprocessable _ => 422
  | Handled o =>
      match response o with
      | inl e => status_of e
      | inr _ => 200
      end
  end.

Section Route.

Variable calculate_bundle_hash : DependencySet -> string.
Variable hexdigest : bytes -> string.
Variable InstallerFactory_new : InstallerFactory.
Variable json_loads_versions : string -> option Versions.
Variable json_loads_custom_args : string -> string + option (list string).

(** The dependency runs first, the parameters are validated next, and the
    body runs on the values of the fields when none is missing. *)
Definition post_v1_cache (g : Globals) (request : HttpRequest) : Reply :=
  match validate_api_key g (authorization request) with
  | Some e => Refused e
  | None =>
      let raw := form_data request in
      match form_value (raw_manager raw), form_value (raw_hash raw),
            form_value (raw_versions raw), raw_file raw with
      | Some manager, Some hash, Some versions, (_ :: _) as file =>
          Handled
            (cache_dependencies calculate_bundle_hash hexdigest InstallerFactory_new
               json_loads_versions json_loads_custom_args (app_of g)
               {| form_manager := manager;
                  form_hash := hash;
                  form_versions := versions;
                  form_file := file;
                  form_custom_args := form_value (raw_custom_args raw) |})
      | _, _, _, _ => Unprocessable (missing_fields raw)
      end
  end.

End Route.

(** The request with another value, or none, in its [hash] field. *)
Definition with_raw_hash (request : HttpRequest) (hash : option string) : HttpRequest :=
  {| authorization := authorization request;
     form_data :=
       {| raw_manager := raw_manager (form_data request);
          raw_hash := hash;
          raw_versions := raw_versions (form_data request);
          raw_file := raw_file (form_data request);
          raw_custom_args := raw_custom_args (form_data request) |} |}.

(** The form of the scenarios as a client sends it, with no credentials. *)
Definition raw_of (form : Form) : HttpRequest :=
  {| authorization := None;
     form_data :=
       {| raw_manager := Some (form_manager form);
          raw_hash := Some (form_hash form);
          raw_versions := Some (form_versions form);
          raw_file := form_file form;
          raw_custom_args := form_custom_args form |} |}.

(** The globals after start-up with a public configuration. *)
Definition public_globals (supported : gmap string (list Versions))
    (repo : FileSystemCacheRepository) : Globals :=
  {| g_config := Some (Scenario.configuration supported false);
     g_cache_repository := Some repo;
     g_api_key_validator := None;
     g_docker_utils := None |}.

(** A file name within ASCII, where [lower] is [str.lower]. *)
Definition ascii_name (name : string) : bool :=
  forallb (fun c => Nat.ltb (nat_of_ascii c) 128) (list_ascii_of_string name).

Definition ascii_named (uploaded_file : UploadFile) : bool :=
  match filename uploaded_file with
  | Some name => ascii_name name
  | None => true
  end.
(** * Theorems *)

(** Unfolds the monad operations of a computation applied to a repository. *)
Ltac run :=
  cbv [mbind M_bind bind mret M_ret ret raise lift emit finally write_bytes
       call_get_index call_has_bundle call_store_blob call_save_index];
  cbn [result repository trace].

Section StoreTheory.

Variable hexdigest : bytes -> string.

Lemma store_files_run files : forall index_data repo,
  store_files hexdigest files index_data repo
  = mkOutcome (inr (index_of hexdigest files index_data))
      (store_all hexdigest files repo)
      (map (blob_event hexdigest) files).
Proof.
  induction files as [|file rest IH]; intros index_data repo.
  - reflexivity.
  - cbn [store_files]. run. rewrite IH. reflexivity.
Qed.

Lemma store_blob_indexes h c repo : indexes (store_blob h c repo) = indexes repo.
Proof. unfold store_blob. destruct (blobs repo !! h); reflexivity. Qed.

Lemma store_blob_bundles h c repo : bundles (store_blob h c repo) = bundles repo.
Proof. unfold store_blob. destruct (blobs repo !! h); reflexivity. Qed.

Lemma store_blob_stored h c repo : is_Some (blobs (store_blob h c repo) !! h).
Proof.
  unfold store_blob. destruct (blobs repo !! h) eqn:E.
  - rewrite E. eauto.
  - cbn [blobs]. rewrite lookup_insert_eq. eauto.
Qed.

Lemma store_blob_keeps h c repo h' :
  is_Some (blobs repo !! h') -> is_Some (blobs (store_blob h c repo) !! h').
Proof.
  intros Hs. unfold store_blob. destruct (blobs repo !! h) eqn:E; [exact Hs|].
  cbn [blobs]. destruct (decide (h = h')) as [->|Hne].
  - rewrite lookup_insert_eq. eauto.
  - rewrite lookup_insert_ne; assumption.
Qed.

Lemma store_all_cons f rest repo :
  store_all hexdigest (f :: rest) repo
  = store_all hexdigest rest (store_blob (hexdigest (content f)) (content f) repo).
Proof. reflexivity. Qed.

Lemma index_of_cons f rest index_data :
  index_of hexdigest (f :: rest) index_data
  = index_of hexdigest rest (<[relative_path f := hexdigest (content f)]> index_data).
Proof. reflexivity. Qed.

Lemma store_all_indexes files : forall repo,
  indexes (store_all hexdigest files repo) = indexes repo.
Proof.
  induction files as [|f rest IH]; intros repo; [reflexivity|].
  rewrite store_all_cons. rewrite IH.
  apply store_blob_indexes.
Qed.

Lemma store_all_bundles files : forall repo,
  bundles (store_all hexdigest files repo) = bundles repo.
Proof.
  induction files as [|f rest IH]; intros repo; [reflexivity|].
  rewrite store_all_cons. rewrite IH.
  apply store_blob_bundles.
Qed.

Lemma store_all_keeps files : forall repo h,
  is_Some (blobs repo !! h) -> is_Some (blobs (store_all hexdigest files repo) !! h).
Proof.
  induction files as [|f rest IH]; intros repo h Hs; [exact Hs|].
  rewrite store_all_cons.
  apply IH, store_blob_keeps, Hs.
Qed.

(** Each entry of the index the loop builds is an entry it started with or the
    digest of one of the files. *)
Lemma index_of_entries files : forall index_data path h,
  index_of hexdigest files index_data !! path = Some h ->
  index_data !! path = Some h
  \/ exists file, file ∈ files /\ h = hexdigest (content file).
Proof.
  induction files as [|f rest IH]; intros index_data path h Hl; [left; exact Hl|].
  rewrite index_of_cons in Hl.
  apply IH in Hl as [Hl|(file & Hin & ->)].
  - destruct (decide (relative_path f = path)) as [Heq|Hne].
    + rewrite Heq, lookup_insert_eq in Hl. injection Hl as <-.
      right. exists f. split; [apply list_elem_of_here|reflexivity].
    + rewrite lookup_insert_ne in Hl by assumption. left; exact Hl.
  - right. exists file. split; [apply list_elem_of_further; exact Hin|reflexivity].
Qed.

Lemma store_all_stored files : forall repo file,
  file ∈ files ->
  is_Some (blobs (store_all hexdigest files repo) !! hexdigest (content file)).
Proof.
  induction files as [|f rest IH]; intros repo file Hin.
  - inversion Hin.
  - rewrite store_all_cons.
    apply elem_of_cons in Hin as [->|Hin].
    + apply store_all_keeps, store_blob_stored.
    + apply IH, Hin.
Qed.

Lemma blobs_resolve_true repo index_data :
  (forall path h, index_data !! path = Some h -> is_Some (blobs repo !! h)) ->
  blobs_resolve repo index_data = true.
Proof.
  intros H. unfold blobs_resolve. apply forallb_forall. intros [path h] Hin.
  apply list_elem_of_In, elem_of_map_to_list in Hin.
  cbn [snd]. destruct (H _ _ Hin) as [c ->]. reflexivity.
Qed.

End StoreTheory.

Section OrchestratorTheory.

Variable calculate_bundle_hash : DependencySet -> string.
Variable hexdigest : bytes -> string.

#[local] Abbreviation handle := (handle calculate_bundle_hash hexdigest).
#[local] Abbreviation bundle_id := (bundle_id calculate_bundle_hash).
#[local] Abbreviation probe_trace := (probe_trace calculate_bundle_hash).
#[local] Abbreviation _store_dependency_set := (_store_dependency_set hexdigest).

Lemma store_dependency_set_run dependency_set h repo :
  let stored := store_all hexdigest (ds_files dependency_set) repo in
  let index_data := index_of hexdigest (ds_files dependency_set) ∅ in
  let indexed :=
    save_index h (ds_manager dependency_set) (manager_version_of dependency_set)
      index_data stored in
  exists repo',
    generate_bundle_zip h indexed = Some repo'
    /\ _store_dependency_set dependency_set h repo
       = mkOutcome (inr tt) repo'
           (map (blob_event hexdigest) (ds_files dependency_set)
            ++ [ESaveIndex h (ds_manager dependency_set)
                  (manager_version_of dependency_set) index_data;
                EGenerateBundleZip h]).
Proof.
  intros stored index_data indexed.
  assert (Hres : blobs_resolve indexed index_data = true).
  { apply blobs_resolve_true. intros path fh Hl.
    apply index_of_entries in Hl as [Hl|(file & Hin & ->)].
    - rewrite lookup_empty in Hl. discriminate.
    - unfold indexed, save_index. cbn [blobs]. apply store_all_stored, Hin. }
  assert (Hgen : exists repo', generate_bundle_zip h indexed = Some repo').
  { unfold generate_bundle_zip.
    replace (indexes indexed !! h) with
      (Some {| ix_bundle_hash := h; ix_manager := ds_manager dependency_set;
               ix_manager_version := manager_version_of dependency_set;
               ix_files := index_data |}).
    - cbn [ix_files]. rewrite Hres. eauto.
    - unfold indexed, save_index. cbn [indexes]. rewrite lookup_insert_eq. reflexivity. }
  destruct Hgen as [repo' Hgen]. exists repo'. split; [exact Hgen|].
  unfold _store_dependency_set. run. rewrite store_files_run.
  cbn [result repository trace]. unfold call_generate_bundle_zip.
  fold stored. fold index_data. fold indexed. rewrite Hgen.
  cbn [result repository trace].
  reflexivity.
Qed.

Lemma install_run self request method repo :
  (if String.eqb method "docker"
   then _install_with_docker self request
   else _install_natively self request) repo
  = mkOutcome (inr (install_result self request method)) repo
      (install_trace self request method).
Proof.
  unfold install_result, install_trace, staged, staging_writes, installer_of.
  destruct (String.eqb method "docker").
  - unfold _install_with_docker.
    destruct (docker_utils self) as [docker|]; [|reflexivity].
    run. destruct (truthy_bytes (lockfile_content request)); run; reflexivity.
  - unfold _install_natively.
    run. destruct (truthy_bytes (lockfile_content request)); run; reflexivity.
Qed.

Lemma calculate_bundle_hash_run self request repo :
  _calculate_bundle_hash calculate_bundle_hash self request repo
  = mkOutcome (inr (bundle_id self request)) repo
      [ECalculateBundleHash (declared_set self request)].
Proof.
  unfold _calculate_bundle_hash, bundle_id, declared_set, installer_of. run.
  destruct (truthy_bytes (lockfile_content request)); reflexivity.
Qed.

(** The method the decision returns is one of the two names. *)
Lemma determine_installation_method_cases self manager versions :
  _determine_installation_method self manager versions
  = if _is_version_supported self manager versions then inr "native"
    else if isolation self then inr "docker"
    else inl (ValueError (unsupported_message manager)).
Proof.
  unfold _determine_installation_method, isolation, unsupported_message.
  destruct (_is_version_supported self manager versions); [reflexivity|].
  destruct (use_docker_on_version_mismatch self); [|reflexivity].
  destruct (docker_utils self) as [docker|]; reflexivity.
Qed.

(** [handle] in one step: the probe, then the method, the install and the
    storage of a miss. *)
Lemma handle_run self request repo :
  handle self request repo
  = let h := bundle_id self request in
    let probe := probe_trace self request repo in
    if has_bundle repo h then mkOutcome (inr (response_for h true)) repo probe
    else
      match _determine_installation_method self (manager request) (versions request) with
      | inl e => mkOutcome (inl e) repo probe
      | inr method =>
          let installation_result := install_result self request method in
          let t := probe ++ install_trace self request method in
          if success installation_result then
            let o := _store_dependency_set (installed_set request installation_result) h repo in
            mkOutcome (inr (response_for h false)) (repository o) (t ++ trace o)
          else
            mkOutcome
              (inl (RuntimeError ("Installation failed: "
                                  ++ str_opt (error_message installation_result))))
              repo t
      end.
Proof.
  cbv zeta. unfold handle.
  cbv [mbind M_bind bind]. rewrite calculate_bundle_hash_run.
  cbn [result repository trace].
  unfold probe_trace, has_bundle, call_get_index, get_index.
  cbn [result repository trace].
  assert (Hstore : forall method,
    exists repo', _store_dependency_set
      (installed_set request (install_result self request method))
      (bundle_id self request) repo
      = mkOutcome (inr tt) repo'
          (trace (_store_dependency_set
                    (installed_set request (install_result self request method))
                    (bundle_id self request) repo))).
  { intros method.
    destruct (store_dependency_set_run
                (installed_set request (install_result self request method))
                (bundle_id self request) repo) as (repo' & _ & Hrun).
    exists repo'. rewrite Hrun. reflexivity. }
  fold (installed_set request).
  destruct (indexes repo !! bundle_id self request) as [index|] eqn:Hindex;
    cbn [truthy_obj andb].
  - unfold call_has_bundle, has_bundle. rewrite Hindex. cbn [truthy_obj andb].
    cbn [result repository trace].
    destruct (bundles repo !! bundle_id self request) as [archive|] eqn:Harchive;
      cbn [truthy_obj].
    + reflexivity.
    + unfold lift. cbn [result repository trace].
      destruct (_determine_installation_method self (manager request) (versions request))
        as [e|method]; cbn [result repository trace].
      * rewrite app_nil_r. reflexivity.
      * rewrite install_run. cbn [result repository trace].
        fold (installed_set request (install_result self request method)).
        destruct (success (install_result self request method)); cbn [negb].
        -- destruct (Hstore method) as (repo' & Hrun). rewrite Hrun.
           run. rewrite <- !app_assoc. rewrite app_nil_r. reflexivity.
        -- run. rewrite app_nil_r, <- !app_assoc. reflexivity.
  - run. unfold lift. cbn [result repository trace].
    destruct (_determine_installation_method self (manager request) (versions request))
      as [e|method]; cbn [result repository trace].
    + reflexivity.
    + rewrite install_run. cbn [result repository trace].
      fold (installed_set request (install_result self request method)).
      destruct (success (install_result self request method)); cbn [negb].
      * destruct (Hstore method) as (repo' & Hrun). rewrite Hrun.
        run. rewrite <- !app_assoc. rewrite app_nil_r. reflexivity.
      * run. rewrite app_nil_r, <- !app_assoc. reflexivity.
Qed.

End OrchestratorTheory.

Section TraceTheory.

Variable hexdigest : bytes -> string.

Lemma phases_of_blob_events files :
  omap phase (map (blob_event hexdigest) files) = replicate (length files) 0.
Proof. induction files as [|f rest IH]; [reflexivity|]. cbn. rewrite IH. reflexivity. Qed.

Lemma phases_of_install_trace self request method :
  omap phase (install_trace self request method) = [].
Proof.
  unfold install_trace, staging_writes.
  destruct (String.eqb method "docker"); [destruct (docker_utils self)|];
    destruct (truthy_bytes (lockfile_content request)); reflexivity.
Qed.

Lemma store_phases_sorted n : StronglySorted le (replicate n 0 ++ [1; 2]).
Proof.
  induction n as [|n IH]; cbn.
  - repeat constructor.
  - constructor; [exact IH|].
    apply Forall_app. split.
    + apply Forall_forall. intros x Hx. apply elem_of_replicate in Hx as [-> _]. lia.
    + repeat constructor.
Qed.

End TraceTheory.

Section HandleTheory.

Variable calculate_bundle_hash : DependencySet -> string.
Variable hexdigest : bytes -> string.

#[local] Abbreviation handle := (handle calculate_bundle_hash hexdigest).
#[local] Abbreviation bundle_id := (bundle_id calculate_bundle_hash).
#[local] Abbreviation probe_trace := (probe_trace calculate_bundle_hash).

Lemma has_bundle_cached repo h : has_bundle repo h = true <-> cached repo h.
Proof.
  unfold has_bundle, cached.
  destruct (indexes repo !! h), (bundles repo !! h); cbn; split;
    try (intros; discriminate); try (intros; split; eauto);
    intros [[? ?] [? ?]]; discriminate.
Qed.

Lemma generate_bundle_zip_cached h repo repo' :
  generate_bundle_zip h repo = Some repo' -> cached repo' h.
Proof.
  unfold generate_bundle_zip, cached.
  destruct (indexes repo !! h) as [index|] eqn:Hindex; [|discriminate].
  destruct (blobs_resolve repo (ix_files index)); [|discriminate].
  intros [= <-]. cbn [indexes bundles]. rewrite Hindex, lookup_insert_eq. eauto.
Qed.

(** The four ways a request ends. *)
Lemma handle_outcomes self request repo :
  let o := handle self request repo in
  let h := bundle_id self request in
  let probe := probe_trace self request repo in
  let decision :=
    _determine_installation_method self (manager request) (versions request) in
  (has_bundle repo h = true
   /\ o = mkOutcome (inr (response_for h true)) repo probe)
  \/ (has_bundle repo h = false
      /\ exists e, decision = inl e /\ o = mkOutcome (inl e) repo probe)
  \/ (has_bundle repo h = false
      /\ exists method,
           decision = inr method
           /\ success (install_result self request method) = false
           /\ o = mkOutcome
                    (inl (RuntimeError
                            ("Installation failed: "
                             ++ str_opt (error_message (install_result self request method)))))
                    repo (probe ++ install_trace self request method))
  \/ (has_bundle repo h = false
      /\ exists method repo',
           decision = inr method
           /\ success (install_result self request method) = true
           /\ cached repo' h
           /\ o = mkOutcome (inr (response_for h false)) repo'
                    ((probe ++ install_trace self request method)
                     ++ store_trace hexdigest
                          (installed_set request (install_result self request method)) h)).
Proof.
  cbv zeta. rewrite handle_run. cbv zeta.
  destruct (has_bundle repo (bundle_id self request)); [left; split; reflexivity|].
  right.
  destruct (_determine_installation_method self (manager request) (versions request))
    as [e|method].
  { left. split; [reflexivity|]. exists e. split; reflexivity. }
  right.
  destruct (success (install_result self request method)) eqn:Hsuccess.
  - right. split; [reflexivity|].
    destruct (store_dependency_set_run hexdigest
                (installed_set request (install_result self request method))
                (bundle_id self request) repo) as (repo' & Hgen & Hrun).
    exists method, repo'. rewrite Hrun. cbn [repository trace].
    split; [reflexivity|]. split; [exact Hsuccess|].
    split; [eapply generate_bundle_zip_cached, Hgen|reflexivity].
  - left. split; [reflexivity|]. exists method.
    split; [reflexivity|]. split; [exact Hsuccess|reflexivity].
Qed.

End HandleTheory.

Section RequestTheory.

Variable calculate_bundle_hash : DependencySet -> string.
Variable hexdigest : bytes -> string.

#[local] Abbreviation handle := (handle calculate_bundle_hash hexdigest).
#[local] Abbreviation bundle_id := (bundle_id calculate_bundle_hash).
#[local] Abbreviation probe_trace := (probe_trace calculate_bundle_hash).

Lemma probe_trace_events self request repo e :
  e ∈ probe_trace self request repo ->
  e = ECalculateBundleHash (declared_set self request)
  \/ e = EGetIndex (bundle_id self request)
  \/ e = EHasBundle (bundle_id self request).
Proof.
  unfold probe_trace.
  destruct (truthy_obj (indexes repo !! bundle_id self request)); cbn [app];
    rewrite ?elem_of_cons, elem_of_nil; tauto.
Qed.

Lemma install_trace_events self request method e :
  e ∈ install_trace self request method -> is_install_event e = true.
Proof.
  unfold install_trace, staging_writes.
  destruct (String.eqb method "docker"); [destruct (docker_utils self)|];
    destruct (truthy_bytes (lockfile_content request)); cbn [app];
    rewrite ?elem_of_cons, elem_of_nil; intuition subst; reflexivity.
Qed.

Lemma store_trace_events dependency_set h e :
  e ∈ store_trace hexdigest dependency_set h ->
  is_storage_event e = true
  /\ is_hash_computation e = false
  /\ (forall h', bundle_id_of e = Some h' -> h' = h).
Proof.
  unfold store_trace. rewrite elem_of_app, list_elem_of_fmap, !elem_of_cons, elem_of_nil.
  intros [(file & -> & _) | [-> | [-> | []]]]; cbn; repeat split; congruence.
Qed.

Lemma filter_none {A} (f : A -> bool) l :
  (forall x, x ∈ l -> f x = false) -> List.filter f l = [].
Proof.
  induction l as [|x l IH]; intros H; [reflexivity|].
  cbn. rewrite (H x) by apply list_elem_of_here.
  apply IH. intros y Hy. apply H, list_elem_of_further, Hy.
Qed.

Lemma hash_computations_of_probe self request repo :
  List.filter is_hash_computation (probe_trace self request repo)
  = [ECalculateBundleHash (declared_set self request)].
Proof.
  unfold probe_trace.
  destruct (truthy_obj (indexes repo !! bundle_id self request)); reflexivity.
Qed.

Lemma hash_computations_of_install self request method :
  List.filter is_hash_computation (install_trace self request method) = [].
Proof.
  apply filter_none. intros e He. apply install_trace_events in He.
  destruct e; cbn in *; congruence.
Qed.

Lemma hash_computations_of_store dependency_set h :
  List.filter is_hash_computation (store_trace hexdigest dependency_set h) = [].
Proof. apply filter_none. intros e He. apply store_trace_events in He. tauto. Qed.

Lemma phases_of_probe self request repo :
  omap phase (probe_trace self request repo) = [].
Proof.
  unfold probe_trace.
  destruct (truthy_obj (indexes repo !! bundle_id self request)); reflexivity.
Qed.

Lemma store_trace_in_order dependency_set h :
  in_store_order (store_trace hexdigest dependency_set h).
Proof.
  unfold in_store_order, store_trace. rewrite omap_app, phases_of_blob_events.
  apply store_phases_sorted.
Qed.


(** C5: within one [handle] invocation the bundle id is computed exactly once,
    from the dependency set the request declares (manifest, lockfile,
    versions); every repository call that names a bundle (the probe, the index
    write, the archive build) names that value, the response carries it as
    bundle id and in its download path, and a miss response leaves index and
    archive stored under it. *)
Theorem bundle_id_computed_once self request repo :
  let o := handle self request repo in
  let h := bundle_id self request in
  List.filter is_hash_computation (trace o)
  = [ECalculateBundleHash (declared_set self request)]
  /\ (forall e h', e ∈ trace o -> bundle_id_of e = Some h' -> h' = h)
  /\ EGetIndex h ∈ trace o
  /\ (forall response,
        result o = inr response ->
        bundle_hash response = h
        /\ download_url response = ("/download/" ++ h ++ ".zip")%string)
  /\ (forall response,
        result o = inr response -> is_cache_hit response = false ->
        (exists manager manager_version index_data,
           ESaveIndex h manager manager_version index_data ∈ trace o)
        /\ EGenerateBundleZip h ∈ trace o
        /\ cached (repository o) h).
Proof.
  cbv zeta.
  assert (Hprobe : EGetIndex (bundle_id self request) ∈ probe_trace self request repo).
  { unfold probe_trace. apply elem_of_app. left.
    apply list_elem_of_further, list_elem_of_here. }
  assert (Hids : forall e h', e ∈ probe_trace self request repo ->
                   bundle_id_of e = Some h' -> h' = bundle_id self request).
  { intros e h' He Hid. apply probe_trace_events in He as [-> | [-> | ->]];
      cbn in Hid; congruence. }
  assert (Hinst : forall method e h', e ∈ install_trace self request method ->
                    bundle_id_of e = Some h' -> h' = bundle_id self request).
  { intros method e h' He Hid. apply install_trace_events in He.
    destruct e; cbn in *; congruence. }
  destruct (handle_outcomes calculate_bundle_hash hexdigest self request repo)
    as [(_ & ->)|[(_ & e & _ & ->)|[(_ & method & _ & _ & ->)
        |(_ & method & repo' & _ & _ & Hcached & ->)]]];
    cbn [trace result repository].
  - split; [apply hash_computations_of_probe|]. split; [exact Hids|].
    split; [exact Hprobe|]. split.
    + intros response [= <-]. split; reflexivity.
    + intros response [= <-]. discriminate.
  - split; [apply hash_computations_of_probe|]. split; [exact Hids|].
    split; [exact Hprobe|]. split; intros response; discriminate.
  - split.
    { rewrite List.filter_app, hash_computations_of_probe,
        hash_computations_of_install. reflexivity. }
    split.
    { intros e0 h' [He|He]%elem_of_app; [eapply Hids|eapply Hinst]; eassumption. }
    split; [apply elem_of_app; left; exact Hprobe|].
    split; intros response; discriminate.
  - split.
    { rewrite !List.filter_app, hash_computations_of_probe,
        hash_computations_of_install, hash_computations_of_store. reflexivity. }
    split.
    { intros e0 h' [[He|He]%elem_of_app|He]%elem_of_app Hid.
      - eapply Hids; eassumption.
      - eapply Hinst; eassumption.
      - apply store_trace_events in He. apply He, Hid. }
    split; [apply elem_of_app; left; apply elem_of_app; left; exact Hprobe|].
    split.
    + intros response [= <-]. split; reflexivity.
    + intros response _ _. split; [|split; [|exact Hcached]].
      * eexists _, _, _. apply elem_of_app. right. unfold store_trace.
        apply elem_of_app. right. apply list_elem_of_here.
      * apply elem_of_app. right. unfold store_trace.
        apply elem_of_app. right. apply list_elem_of_further, list_elem_of_here.
Qed.

End RequestTheory.

Section MissTheory.

Variable calculate_bundle_hash : DependencySet -> string.
Variable hexdigest : bytes -> string.

#[local] Abbreviation handle := (handle calculate_bundle_hash hexdigest).
#[local] Abbreviation bundle_id := (bundle_id calculate_bundle_hash).
#[local] Abbreviation probe_trace := (probe_trace calculate_bundle_hash).

Lemma isolation_docker self :
  isolation self = true ->
  exists docker, docker_utils self = Some docker /\ is_available docker = true.
Proof.
  unfold isolation. destruct (use_docker_on_version_mismatch self); [|discriminate].
  destruct (docker_utils self) as [docker|]; [|discriminate]. eauto.
Qed.

Lemma native_install_in_trace self request :
  EInstall (staged (installer_of self request) request)
    ∈ install_trace self request "native".
Proof.
  unfold install_trace. cbn [String.eqb Ascii.eqb Bool.eqb].
  apply list_elem_of_further, elem_of_app. right. apply list_elem_of_here.
Qed.

Lemma docker_install_in_trace self request docker :
  docker_utils self = Some docker ->
  EInstallWithDocker (staged (installer_of self request) request)
    ∈ install_trace self request "docker".
Proof.
  intros Hd. unfold install_trace. cbn [String.eqb Ascii.eqb Bool.eqb]. rewrite Hd.
  apply list_elem_of_further, elem_of_app. right. apply list_elem_of_here.
Qed.

Lemma native_trace_without_docker self request d :
  EInstallWithDocker d ∉ install_trace self request "native".
Proof.
  unfold install_trace, staging_writes. cbn [String.eqb Ascii.eqb Bool.eqb].
  destruct (truthy_bytes (lockfile_content request)); cbn [app];
    rewrite !elem_of_cons, elem_of_nil; intuition discriminate.
Qed.

Lemma docker_trace_without_native self request d :
  EInstall d ∉ install_trace self request "docker".
Proof.
  unfold install_trace, staging_writes. cbn [String.eqb Ascii.eqb Bool.eqb].
  destruct (docker_utils self); [|apply not_elem_of_nil].
  destruct (truthy_bytes (lockfile_content request)); cbn [app];
    rewrite !elem_of_cons, elem_of_nil; intuition discriminate.
Qed.

(** Where the calls of a request come from. *)
Lemma handle_trace_members self request repo e :
  e ∈ trace (handle self request repo) ->
  e ∈ probe_trace self request repo
  \/ exists method,
       _determine_installation_method self (manager request) (versions request)
       = inr method
       /\ (e ∈ install_trace self request method
           \/ e ∈ store_trace hexdigest
                    (installed_set request (install_result self request method))
                    (bundle_id self request)).
Proof.
  destruct (handle_outcomes calculate_bundle_hash hexdigest self request repo)
    as [(_ & ->)|[(_ & e' & _ & ->)|[(_ & method & Hd & _ & ->)
        |(_ & method & repo' & Hd & _ & _ & ->)]]]; cbn [trace].
  - tauto.
  - tauto.
  - rewrite elem_of_app. intros [?|?]; [tauto|]. right. exists method. tauto.
  - rewrite !elem_of_app. intros [[?|?]|?]; [tauto| |]; right; exists method; tauto.
Qed.

(** On a miss that passes the method decision the install calls are made. *)
Lemma handle_install_members self request repo method e :
  has_bundle repo (bundle_id self request) = false ->
  _determine_installation_method self (manager request) (versions request) = inr method ->
  e ∈ install_trace self request method ->
  e ∈ trace (handle self request repo).
Proof.
  intros Hmiss Hd He. rewrite handle_run. cbv zeta. rewrite Hmiss, Hd.
  destruct (success (install_result self request method)); cbn [trace];
    rewrite !elem_of_app; tauto.
Qed.

Lemma not_cached_miss repo h : ~ cached repo h -> has_bundle repo h = false.
Proof.
  intros Hn. destruct (has_bundle repo h) eqn:E; [|reflexivity].
  apply has_bundle_cached in E. contradiction.
Qed.

(** C8: on a cache miss the method is native when the version policy reports
    supported (the installer is called, the isolation capability is not);
    otherwise isolated when isolation-on-mismatch is enabled and the capability
    is available (the capability is called, the native installer is not);
    otherwise the request fails with the unsupported-version error, with no
    scratch directory, no install call and no write to the repository. *)
Theorem installation_method_on_miss self request repo :
  let o := handle self request repo in
  let work_dir := staged (installer_of self request) request in
  let supported :=
    _is_version_supported self (manager request) (versions request) in
  let decision :=
    _determine_installation_method self (manager request) (versions request) in
  ~ cached repo (bundle_id self request) ->
  (supported = true ->
     decision = inr "native"
     /\ EInstall work_dir ∈ trace o
     /\ forall d, EInstallWithDocker d ∉ trace o)
  /\ (supported = false -> isolation self = true ->
     decision = inr "docker"
     /\ EInstallWithDocker work_dir ∈ trace o
     /\ forall d, EInstall d ∉ trace o)
  /\ (supported = false -> isolation self = false ->
     decision = inl (ValueError (unsupported_message (manager request)))
     /\ result o = inl (ValueError (unsupported_message (manager request)))
     /\ repository o = repo
     /\ forall e, e ∈ trace o ->
          is_install_event e = false /\ is_storage_event e = false).
Proof.
  cbv zeta. intros Hmiss%not_cached_miss.
  pose proof (determine_installation_method_cases self (manager request)
                (versions request)) as Hd.
  assert (Hother : forall method e,
    _determine_installation_method self (manager request) (versions request)
    = inr method ->
    e ∈ trace (handle self request repo) ->
    is_install_event e = false ->
    e ∈ probe_trace self request repo
    \/ e ∈ store_trace hexdigest
             (installed_set request (install_result self request method))
             (bundle_id self request)).
  { intros method e Hm He Hne.
    apply handle_trace_members in He as [He|(method' & Hm' & [He|He])].
    - left; exact He.
    - apply install_trace_events in He. congruence.
    - right. rewrite Hm in Hm'. injection Hm' as <-. exact He. }
  assert (Hnone : forall method e,
    _determine_installation_method self (manager request) (versions request)
    = inr method ->
    e ∈ trace (handle self request repo) ->
    (exists d, e = EInstall d) \/ (exists d, e = EInstallWithDocker d) ->
    e ∈ install_trace self request method).
  { intros method e Hm He Hshape.
    apply handle_trace_members in He as [He|(method' & Hm' & [He|He])].
    - apply probe_trace_events in He.
      destruct Hshape as [[d ->]|[d ->]]; intuition discriminate.
    - rewrite Hm in Hm'. injection Hm' as <-. exact He.
    - apply store_trace_events in He as (Hs & _).
      destruct Hshape as [[d ->]|[d ->]]; discriminate. }
  split; [|split].
  - intros Hs. rewrite Hs in Hd. split; [exact Hd|]. split.
    + eapply handle_install_members; [exact Hmiss|exact Hd|].
      apply native_install_in_trace.
    + intros d Hin. eapply native_trace_without_docker.
      eapply Hnone; [exact Hd|exact Hin|right; eauto].
  - intros Hs Hiso. rewrite Hs, Hiso in Hd. split; [exact Hd|].
    destruct (isolation_docker self Hiso) as (docker & Hdocker & _). split.
    + eapply handle_install_members; [exact Hmiss|exact Hd|].
      eapply docker_install_in_trace, Hdocker.
    + intros d Hin. eapply docker_trace_without_native.
      eapply Hnone; [exact Hd|exact Hin|left; eauto].
  - intros Hs Hiso. rewrite Hs, Hiso in Hd. split; [exact Hd|].
    rewrite handle_run. cbv zeta. rewrite Hmiss, Hd. cbn [result repository trace].
    split; [reflexivity|]. split; [reflexivity|].
    intros e [-> | [-> | ->]]%probe_trace_events; split; reflexivity.
Qed.

(** C4: [handle] answers with [cache_hit = true] only when the index and the
    archive of the bundle are both present (and then it does, leaving the
    repository as it is); when the index is present and the archive is not,
    the request is a miss: no response says hit, the probe is followed by the
    method decision, and the install path runs as that decision says: the
    installer is called on the staged directory when the version policy
    reports supported, the isolation capability is called on it when the
    policy does not and isolation is enabled and available, and the request
    is rejected with the unsupported-version error only when neither holds. *)
Theorem cache_hit_requires_index_and_archive self request repo :
  let o := handle self request repo in
  let h := bundle_id self request in
  let work_dir := staged (installer_of self request) request in
  let supported :=
    _is_version_supported self (manager request) (versions request) in
  (forall response,
     result o = inr response -> is_cache_hit response = true -> cached repo h)
  /\ (cached repo h ->
      o = mkOutcome (inr (response_for h true)) repo (probe_trace self request repo))
  /\ (is_Some (indexes repo !! h) -> bundles repo !! h = None ->
      (forall response, result o = inr response -> is_cache_hit response = false)
      /\ (supported = true ->
            EInstall work_dir ∈ trace o
            /\ exists rest,
                 trace o
                 = (probe_trace self request repo
                    ++ install_trace self request "native") ++ rest)
      /\ (supported = false -> isolation self = true ->
            EInstallWithDocker work_dir ∈ trace o
            /\ exists rest,
                 trace o
                 = (probe_trace self request repo
                    ++ install_trace self request "docker") ++ rest)
      /\ (supported = false -> isolation self = false ->
            o = mkOutcome (inl (ValueError (unsupported_message (manager request))))
                  repo (probe_trace self request repo))).
Proof.
  cbv zeta. split; [|split].
  - intros response Hr Hhit.
    destruct (handle_outcomes calculate_bundle_hash hexdigest self request repo)
      as [(Hb & _)|[(_ & e & _ & Ho)|[(_ & method & _ & _ & Ho)
          |(_ & method & repo' & _ & _ & _ & Ho)]]].
    + apply has_bundle_cached, Hb.
    + rewrite Ho in Hr. discriminate.
    + rewrite Ho in Hr. discriminate.
    + rewrite Ho in Hr. cbn in Hr. injection Hr as <-. discriminate.
  - intros Hc%has_bundle_cached. rewrite handle_run. cbv zeta. rewrite Hc. reflexivity.
  - intros Hindex Harchive.
    assert (Hmiss : has_bundle repo (bundle_id self request) = false).
    { unfold has_bundle. rewrite Harchive. apply andb_false_r. }
    pose proof (determine_installation_method_cases self (manager request)
                  (versions request)) as Hd.
    assert (Hrest : forall method,
      _determine_installation_method self (manager request) (versions request)
      = inr method ->
      exists rest,
        trace (handle self request repo)
        = (probe_trace self request repo ++ install_trace self request method) ++ rest).
    { intros method Hm. rewrite handle_run. cbv zeta. rewrite Hmiss, Hm.
      destruct (success (install_result self request method)); cbn [trace].
      - eexists. reflexivity.
      - exists []. rewrite app_nil_r. reflexivity. }
    split; [|split; [|split]].
    + intros response Hr. rewrite handle_run in Hr. cbv zeta in Hr. rewrite Hmiss in Hr.
      destruct (_determine_installation_method self (manager request) (versions request))
        as [e|method]; [discriminate|].
      destruct (success (install_result self request method)); [|discriminate].
      cbn in Hr. injection Hr as <-. reflexivity.
    + intros Hs. rewrite Hs in Hd. split; [|apply Hrest, Hd].
      eapply handle_install_members; [exact Hmiss|exact Hd|].
      apply native_install_in_trace.
    + intros Hs Hiso. rewrite Hs, Hiso in Hd. split; [|apply Hrest, Hd].
      destruct (isolation_docker self Hiso) as (docker & Hdocker & _).
      eapply handle_install_members; [exact Hmiss|exact Hd|].
      eapply docker_install_in_trace, Hdocker.
    + intros Hs Hiso. rewrite Hs, Hiso in Hd.
      rewrite handle_run. cbv zeta. rewrite Hmiss, Hd. reflexivity.
Qed.

End MissTheory.

Section StagingTheory.

Variable calculate_bundle_hash : DependencySet -> string.

(** C6: when [lockfile_content] is empty, the install step writes the manifest
    and nothing else to the scratch directory before the installer (native or
    isolated) is called on it and returns what the installer returns for that
    directory, and the bundle id is the fingerprint of a dependency set whose
    file list holds the manifest only; when it is not empty, the lockfile is
    written after the manifest, is in the directory the installer is called
    on, and the bundle id is the fingerprint of the set whose file list holds
    the lockfile and then the manifest. *)
Theorem empty_lockfile_is_not_staged self request repo :
  let installer := installer_of self request in
  let manifest_file :=
    {| relative_path := manifest_name installer; content := manifest_content request |} in
  let lockfile_file :=
    {| relative_path := lockfile_name installer; content := lockfile_content request |} in
  let write_manifest := EWriteBytes (manifest_name installer) (manifest_content request) in
  let write_lockfile := EWriteBytes (lockfile_name installer) (lockfile_content request) in
  let only_manifest : Dir := <[manifest_name installer := manifest_content request]> ∅ in
  let both : Dir := <[lockfile_name installer := lockfile_content request]> only_manifest in
  let kwargs := _get_version_kwargs (manager request) (versions request) in
  let without_lockfile := DependencySet_init (manager request) [manifest_file] kwargs in
  let with_lockfile :=
    DependencySet_init (manager request) [lockfile_file; manifest_file] kwargs in
  (lockfile_content request = [] ->
     _install_natively self request repo
     = mkOutcome (inr (install installer only_manifest)) repo
         [EMkdtemp; write_manifest; EInstall only_manifest; ERmtree]
     /\ (forall docker, docker_utils self = Some docker ->
         _install_with_docker self request repo
         = mkOutcome
             (inr (install_with_docker docker only_manifest
                     (manager request) (versions request) (custom_args request)))
             repo
             [EMkdtemp; write_manifest; EInstallWithDocker only_manifest; ERmtree])
     /\ _calculate_bundle_hash calculate_bundle_hash self request repo
        = mkOutcome (inr (calculate_bundle_hash without_lockfile)) repo
            [ECalculateBundleHash without_lockfile])
  /\ (lockfile_content request <> [] ->
     _install_natively self request repo
     = mkOutcome (inr (install installer both)) repo
         [EMkdtemp; write_manifest; write_lockfile; EInstall both; ERmtree]
     /\ (forall docker, docker_utils self = Some docker ->
         _install_with_docker self request repo
         = mkOutcome
             (inr (install_with_docker docker both
                     (manager request) (versions request) (custom_args request)))
             repo
             [EMkdtemp; write_manifest; write_lockfile; EInstallWithDocker both; ERmtree])
     /\ both !! lockfile_name installer = Some (lockfile_content request)
     /\ _calculate_bundle_hash calculate_bundle_hash self request repo
        = mkOutcome (inr (calculate_bundle_hash with_lockfile)) repo
            [ECalculateBundleHash with_lockfile]).
Proof.
  cbv zeta. unfold installer_of, _install_natively, _install_with_docker,
    _calculate_bundle_hash.
  split.
  - intros Hempty. rewrite Hempty. cbn [truthy_bytes]. run.
    split; [reflexivity|]. split; [|reflexivity].
    intros docker ->. run. reflexivity.
  - intros Hlock.
    destruct (lockfile_content request) as [|byte rest] eqn:Hcontent; [congruence|].
    cbn [truthy_bytes]. run.
    split; [reflexivity|]. split; [|split; [apply lookup_insert_eq|reflexivity]].
    intros docker ->. run. reflexivity.
Qed.

(** The two spellings give the same keyword arguments for npm and yarn. *)
Lemma version_kwargs_of_aliases manager runtime_version package_manager_version :
  manager = "npm" \/ manager = "yarn" ->
  _get_version_kwargs manager (api_roles runtime_version package_manager_version)
  = _get_version_kwargs manager (internal_roles runtime_version package_manager_version).
Proof.
  intros [-> | ->]; vm_compute; reflexivity.
Qed.

Lemma normalized_versions_of_aliases manager runtime_version package_manager_version :
  manager = "npm" \/ manager = "yarn" ->
  normalized_versions manager (api_roles runtime_version package_manager_version)
  = normalized_versions manager (internal_roles runtime_version package_manager_version).
Proof.
  intros [-> | ->]; vm_compute; reflexivity.
Qed.

(** C1, as the code has it: two npm (or yarn) requests that differ only in
    spelling their versions as node/npm or as runtime/package_manager declare
    the same dependency set and get the same bundle id, whatever the
    fingerprint function, provided the installer registry names the manifest
    and the lockfile alike for both; the version policy also sees the same
    normalized tuple. *)
Theorem alias_requests_share_bundle_id self request repo
    runtime_version package_manager_version :
  let r1 := with_versions request (api_roles runtime_version package_manager_version) in
  let r2 := with_versions request (internal_roles runtime_version package_manager_version) in
  manager request = "npm" \/ manager request = "yarn" ->
  manifest_name (installer_of self r1) = manifest_name (installer_of self r2) ->
  lockfile_name (installer_of self r1) = lockfile_name (installer_of self r2) ->
  _calculate_bundle_hash calculate_bundle_hash self r1 repo
  = _calculate_bundle_hash calculate_bundle_hash self r2 repo
  /\ normalized_versions (manager r1) (versions r1)
     = normalized_versions (manager r2) (versions r2).
Proof.
  cbv zeta. intros Hm Hmanifest Hlock. split.
  - rewrite !calculate_bundle_hash_run. unfold bundle_id, declared_set.
    rewrite Hmanifest, Hlock. cbn [manager versions lockfile_content manifest_content
      with_versions].
    rewrite (version_kwargs_of_aliases _ _ _ Hm). reflexivity.
  - cbn [manager versions with_versions]. apply normalized_versions_of_aliases, Hm.
Qed.

End StagingTheory.

(** C1, as stated, fails: for the two requests of the scenario no fingerprint
    function of the dependency set tells them apart. *)
Lemma alias_requests_bundle_ids_do_not_differ :
  ~ (exists calculate_bundle_hash : DependencySet -> string,
       result (_calculate_bundle_hash calculate_bundle_hash
                 (Scenario.handler ∅ None false)
                 (Scenario.request "npm" Scenario.node_npm []) empty_repository)
       <> result (_calculate_bundle_hash calculate_bundle_hash
                    (Scenario.handler ∅ None false)
                    (Scenario.request "npm" Scenario.runtime_package_manager [])
                    empty_repository)).
Proof.
  intros [calculate_bundle_hash Hdiff]. apply Hdiff.
  vm_compute. reflexivity.
Qed.

Lemma alias_requests_share_bundle_id_witness :
  _calculate_bundle_hash Scenario.fingerprint (Scenario.handler ∅ None false)
    (with_versions (Scenario.request "npm" ∅ []) (api_roles "20.0.0" "10.0.0"))
    empty_repository
  = _calculate_bundle_hash Scenario.fingerprint (Scenario.handler ∅ None false)
      (with_versions (Scenario.request "npm" ∅ []) (internal_roles "20.0.0" "10.0.0"))
      empty_repository
  /\ normalized_versions "npm" (api_roles "20.0.0" "10.0.0")
     = normalized_versions "npm" (internal_roles "20.0.0" "10.0.0").
Proof.
  apply (alias_requests_share_bundle_id Scenario.fingerprint
           (Scenario.handler ∅ None false) (Scenario.request "npm" ∅ [])
           empty_repository "20.0.0" "10.0.0").
  - left. reflexivity.
  - reflexivity.
  - reflexivity.
Defined.

Section EndpointTheory.

Variable calculate_bundle_hash : DependencySet -> string.
Variable hexdigest : bytes -> string.
Variable factory : InstallerFactory.
Variable json_loads_versions : string -> option Versions.
Variable json_loads_custom_args : string -> string + option (list string).

#[local] Abbreviation endpoint :=
  (cache_dependencies calculate_bundle_hash hexdigest factory
     json_loads_versions json_loads_custom_args).
#[local] Abbreviation read :=
  (read_request json_loads_versions json_loads_custom_args).

(** C3, as the code has it: when the version policy rejects a request that
    misses the cache and the isolation fallback is not both enabled and
    available, [handle] raises the unsupported-version [ValueError] and the
    endpoint answers with status 400, a client error, carrying that message;
    the repository is left as it was. *)
Theorem unsupported_version_is_a_client_error app cfg repo form request :
  let handler := handler_of factory app cfg in
  config app = Some cfg ->
  cache_repository app = Some repo ->
  read form = inr request ->
  ~ cached repo (bundle_id calculate_bundle_hash handler request) ->
  _is_version_supported handler (manager request) (versions request) = false ->
  isolation handler = false ->
  result (handle calculate_bundle_hash hexdigest handler request repo)
  = inl (ValueError (unsupported_message (manager request)))
  /\ response (endpoint app form)
     = inl (mkHTTPException 400 (unsupported_message (manager request)))
  /\ repository_after (endpoint app form) = Some repo.
Proof.
  cbv zeta. intros Hconfig Hrepo Hread Hmiss%not_cached_miss Hs Hiso.
  pose proof (determine_installation_method_cases (handler_of factory app cfg)
                (manager request) (versions request)) as Hd.
  rewrite Hs, Hiso in Hd.
  assert (Hrun : handle calculate_bundle_hash hexdigest (handler_of factory app cfg)
                   request repo
                 = mkOutcome (inl (ValueError (unsupported_message (manager request))))
                     repo
                     (probe_trace calculate_bundle_hash (handler_of factory app cfg)
                        request repo)).
  { rewrite handle_run. cbv zeta. rewrite Hmiss, Hd. reflexivity. }
  split; [rewrite Hrun; reflexivity|].
  unfold cache_dependencies. rewrite Hconfig, Hrepo, Hread.
  fold (handler_of factory app cfg). rewrite Hrun. split; reflexivity.
Qed.


End EndpointTheory.

(** C3, as stated, fails: scenario (c) of the specification, the support list
    [[{runtime: 18.0.0, package_manager: 9.0.0}]], a request for 20.0.0 and
    10.0.0, isolation disabled, an empty cache: the answer is status 400. *)
Lemma unsupported_version_answers_400 :
  _is_version_supported (Scenario.handler Scenario.only_18_9 None false)
    "npm" Scenario.node_npm = false
  /\ isolation (Scenario.handler Scenario.only_18_9 None false) = false
  /\ response
       (cache_dependencies Scenario.fingerprint Scenario.digest Scenario.factory
          Scenario.loads_versions Scenario.loads_custom_args
          (Scenario.app Scenario.only_18_9 false) (Scenario.form "0000"))
     = inl (mkHTTPException 400 "Unsupported npm version and Docker is not available").
Proof. vm_compute. repeat split; reflexivity. Qed.

Lemma unsupported_version_is_a_client_error_witness :
  result (handle Scenario.fingerprint Scenario.digest
            (Scenario.handler Scenario.only_18_9 None false)
            (Scenario.request "npm" Scenario.node_npm []) empty_repository)
  = inl (ValueError (unsupported_message "npm"))
  /\ response
       (cache_dependencies Scenario.fingerprint Scenario.digest Scenario.factory
          Scenario.loads_versions Scenario.loads_custom_args
          (Scenario.app Scenario.only_18_9 false) (Scenario.form "0000"))
     = inl (mkHTTPException 400 (unsupported_message "npm"))
  /\ repository_after
       (cache_dependencies Scenario.fingerprint Scenario.digest Scenario.factory
          Scenario.loads_versions Scenario.loads_custom_args
          (Scenario.app Scenario.only_18_9 false) (Scenario.form "0000"))
     = Some empty_repository.
Proof.
  apply (unsupported_version_is_a_client_error Scenario.fingerprint Scenario.digest
           Scenario.factory Scenario.loads_versions Scenario.loads_custom_args
           (Scenario.app Scenario.only_18_9 false)
           (Scenario.configuration Scenario.only_18_9 false)
           empty_repository (Scenario.form "0000")
           (Scenario.request "npm" Scenario.node_npm [])).
  - reflexivity.
  - reflexivity.
  - vm_compute. reflexivity.
  - intros [[index Hindex] _]. cbn in Hindex. rewrite lookup_empty in Hindex.
    discriminate.
  - vm_compute. reflexivity.
  - reflexivity.
Defined.


Section PolicyTheory.

Lemma entry_matches_items items (normalized : Versions) :
  entry_matches items normalized = true
  <-> forall key value, (key, value) ∈ items -> normalized !! key = Some value.
Proof.
  induction items as [|[key value] rest IH]; cbn [entry_matches].
  - split; [intros _ k v Hin; inversion Hin|reflexivity].
  - destruct (normalized !! key) as [v|] eqn:Hl.
    + destruct (String.eqb_spec value v) as [->|Hne]; cbn [negb].
      * rewrite IH. split.
        -- intros H k v' [Heq|Hin]%elem_of_cons; [|apply H, Hin].
           injection Heq as -> ->. exact Hl.
        -- intros H k v' Hin. apply H, list_elem_of_further, Hin.
      * split; [discriminate|]. intros H.
        specialize (H key value (list_elem_of_here _ _)). congruence.
    + split; [discriminate|]. intros H.
      specialize (H key value (list_elem_of_here _ _)). congruence.
Qed.

Lemma entry_matches_refines (entry normalized : Versions) :
  entry_matches (map_to_list entry) normalized = true
  <-> entry_matches_spec entry normalized.
Proof.
  rewrite entry_matches_items. unfold entry_matches_spec.
  split; intros H key value Hl; apply H; apply elem_of_map_to_list; exact Hl.
Qed.

Lemma first_match_refines supported_list (normalized : Versions) :
  first_match supported_list normalized = true
  <-> exists entry, entry ∈ supported_list /\ entry_matches_spec entry normalized.
Proof.
  induction supported_list as [|supported rest IH]; cbn [first_match].
  - split; [discriminate|]. intros (entry & Hin & _). inversion Hin.
  - destruct (entry_matches (map_to_list supported) normalized) eqn:Hm.
    + split; [|reflexivity]. intros _. exists supported.
      split; [apply list_elem_of_here|apply entry_matches_refines, Hm].
    + rewrite IH. split.
      * intros (entry & Hin & He). exists entry.
        split; [apply list_elem_of_further, Hin|exact He].
      * intros (entry & [->|Hin]%elem_of_cons & He).
        -- apply entry_matches_refines in He. congruence.
        -- exists entry. split; assumption.
Qed.

Lemma normalized_versions_refines manager versions :
  normalized_versions manager versions = normalize_spec manager versions.
Proof.
  unfold normalized_versions, normalize_spec, role_aliases.
  destruct (String.eqb manager "npm" || String.eqb manager "yarn").
  - cbn [rename_roles first_present].
    destruct (versions !! "node"), (versions !! "runtime"), (versions !! "npm"),
      (versions !! "yarn"), (versions !! "package_manager");
      first [reflexivity | apply insert_insert_ne; discriminate].
  - destruct (String.eqb manager "composer"); [|reflexivity].
    cbn [rename_roles first_present].
    destruct (versions !! "php"), (versions !! "runtime"); reflexivity.
Qed.

(** C7: the version-support check answers supported when the manager has no
    configured support list or an empty one; otherwise it normalizes the role
    names of the request (for npm and yarn, node or runtime to runtime and npm,
    yarn or package_manager to package_manager; for composer, php or runtime
    to runtime; for other managers, no change) and answers supported exactly
    when some support entry has every one of its keys in the normalized tuple
    with an equal value. *)
Theorem version_support_refines_policy self manager versions :
  normalized_versions manager versions = normalize_spec manager versions
  /\ (_is_version_supported self manager versions = true
      <-> supported_spec (supported_versions self) manager versions)
  /\ (supported_versions self !! manager = None ->
      _is_version_supported self manager versions = true)
  /\ (supported_versions self !! manager = Some [] ->
      _is_version_supported self manager versions = true).
Proof.
  split; [apply normalized_versions_refines|].
  unfold _is_version_supported, supported_spec.
  split; [|split; intros ->; reflexivity].
  destruct (supported_versions self !! manager) as [[|supported rest]|];
    [tauto| |tauto].
  rewrite first_match_refines, normalized_versions_refines. reflexivity.
Qed.

End PolicyTheory.

(** ** The manager-version descriptor *)

Lemma manager_version_npm dependency_set :
  ds_manager dependency_set = "npm" ->
  manager_version_of dependency_set
  = if truthy_opt_str (node_version dependency_set)
       && truthy_opt_str (npm_version dependency_set)
    then (str_opt (node_version dependency_set) ++ "_"
          ++ str_opt (npm_version dependency_set))%string
    else "unknown".
Proof. unfold manager_version_of. intros ->. reflexivity. Qed.

Lemma manager_version_composer dependency_set :
  ds_manager dependency_set = "composer" ->
  manager_version_of dependency_set
  = if truthy_opt_str (php_version dependency_set)
    then str_opt (php_version dependency_set)
    else "unknown".
Proof. unfold manager_version_of. intros ->. reflexivity. Qed.

Lemma manager_version_other dependency_set :
  ds_manager dependency_set <> "npm" ->
  ds_manager dependency_set <> "composer" ->
  manager_version_of dependency_set = "unknown".
Proof.
  unfold manager_version_of. intros Hnpm Hcomposer.
  destruct (String.eqb_spec (ds_manager dependency_set) "npm"); [contradiction|].
  destruct (String.eqb_spec (ds_manager dependency_set) "composer"); [contradiction|].
  reflexivity.
Qed.

(** C2, where the code departs from it: a yarn request with node 20.0.0 and
    yarn 1.22.0 is installed and stored with both versions in its dependency
    set, and the descriptor written with its index is "unknown". *)
Theorem yarn_descriptor_is_unknown :
  let handler := Scenario.handler ∅ None false in
  let request := Scenario.request "yarn" Scenario.node_yarn [] in
  let o := handle Scenario.fingerprint Scenario.digest handler request empty_repository in
  let stored := installed_set request (install_result handler request "native") in
  result o = inr (response_for (bundle_id Scenario.fingerprint handler request) false)
  /\ node_version stored = Some "20.0.0"
  /\ npm_version stored = Some "1.22.0"
  /\ manager_version_of stored = "unknown"
  /\ ix_manager_version
       <$> indexes (repository o) !! bundle_id Scenario.fingerprint handler request
     = Some "unknown".
Proof. vm_compute. repeat split; reflexivity. Qed.

(** ** The theorems at the scenarios *)

Lemma installation_method_on_miss_witness :
  ~ cached empty_repository
      (bundle_id Scenario.fingerprint (Scenario.handler Scenario.only_18_9 None false)
         (Scenario.request "npm" Scenario.node_npm []))
  /\ result (handle Scenario.fingerprint Scenario.digest
               (Scenario.handler Scenario.only_18_9 None false)
               (Scenario.request "npm" Scenario.node_npm []) empty_repository)
     = inl (ValueError (unsupported_message "npm")).
Proof.
  assert (Hmiss : ~ cached empty_repository
            (bundle_id Scenario.fingerprint
               (Scenario.handler Scenario.only_18_9 None false)
               (Scenario.request "npm" Scenario.node_npm []))).
  { intros [[index Hindex] _]. cbn in Hindex. rewrite lookup_empty in Hindex.
    discriminate. }
  split; [exact Hmiss|].
  destruct (installation_method_on_miss Scenario.fingerprint Scenario.digest
              (Scenario.handler Scenario.only_18_9 None false)
              (Scenario.request "npm" Scenario.node_npm []) empty_repository Hmiss)
    as (_ & _ & Hreject).
  apply Hreject; vm_compute; reflexivity.
Defined.

Lemma cache_hit_requires_index_and_archive_witness :
  is_Some (indexes (Scenario.stale_repository "npm|20.0.0|10.0.0|None|package.json={}")
             !! bundle_id Scenario.fingerprint (Scenario.handler ∅ None false)
                  (Scenario.request "npm" Scenario.node_npm []))
  /\ EInstall (staged (Scenario.installer "npm")
                 (Scenario.request "npm" Scenario.node_npm []))
       ∈ trace (handle Scenario.fingerprint Scenario.digest
                  (Scenario.handler ∅ None false)
                  (Scenario.request "npm" Scenario.node_npm [])
                  (Scenario.stale_repository "npm|20.0.0|10.0.0|None|package.json={}")).
Proof.
  assert (Hindex : is_Some
            (indexes (Scenario.stale_repository "npm|20.0.0|10.0.0|None|package.json={}")
               !! bundle_id Scenario.fingerprint (Scenario.handler ∅ None false)
                    (Scenario.request "npm" Scenario.node_npm []))).
  { vm_compute. eauto. }
  split; [exact Hindex|].
  destruct (cache_hit_requires_index_and_archive Scenario.fingerprint Scenario.digest
              (Scenario.handler ∅ None false)
              (Scenario.request "npm" Scenario.node_npm [])
              (Scenario.stale_repository "npm|20.0.0|10.0.0|None|package.json={}"))
    as (_ & _ & Hstale).
  destruct Hstale as (_ & Hnative & _); [exact Hindex|vm_compute; reflexivity|].
  apply Hnative. vm_compute. reflexivity.
Defined.

Lemma empty_lockfile_is_not_staged_witness :
  (trace (_install_natively (Scenario.handler ∅ None false)
            (Scenario.request "npm" Scenario.node_npm []) empty_repository)
   = [EMkdtemp; EWriteBytes "package.json" (b "{}");
      EInstall (<["package.json" := b "{}"]> ∅); ERmtree]
   /\ result (_calculate_bundle_hash Scenario.fingerprint (Scenario.handler ∅ None false)
                (Scenario.request "npm" Scenario.node_npm []) empty_repository)
      = inr "npm|20.0.0|10.0.0|None|package.json={}")
  /\ (trace (_install_natively (Scenario.handler ∅ None false)
               (Scenario.request "npm" Scenario.node_npm (b "lock")) empty_repository)
      = [EMkdtemp; EWriteBytes "package.json" (b "{}");
         EWriteBytes "package-lock.json" (b "lock");
         EInstall (<["package-lock.json" := b "lock"]> (<["package.json" := b "{}"]> ∅));
         ERmtree]
      /\ result (_calculate_bundle_hash Scenario.fingerprint
                   (Scenario.handler ∅ None false)
                   (Scenario.request "npm" Scenario.node_npm (b "lock"))
                   empty_repository)
         = inr "npm|20.0.0|10.0.0|None|package-lock.json=lock,package.json={}").
Proof.
  split.
  - destruct (empty_lockfile_is_not_staged Scenario.fingerprint
                (Scenario.handler ∅ None false)
                (Scenario.request "npm" Scenario.node_npm []) empty_repository)
      as (Hempty & _).
    destruct (Hempty eq_refl) as (-> & _ & ->). split; reflexivity.
  - destruct (empty_lockfile_is_not_staged Scenario.fingerprint
                (Scenario.handler ∅ None false)
                (Scenario.request "npm" Scenario.node_npm (b "lock")) empty_repository)
      as (_ & Hlock).
    destruct Hlock as (-> & _ & _ & ->); [discriminate|]. split; reflexivity.
Defined.

Lemma bundle_id_computed_once_witness :
  result (handle Scenario.fingerprint Scenario.digest (Scenario.handler ∅ None false)
            (Scenario.request "npm" Scenario.node_npm []) empty_repository)
  = inr (response_for "npm|20.0.0|10.0.0|None|package.json={}" false)
  /\ cached
       (repository (handle Scenario.fingerprint Scenario.digest
                      (Scenario.handler ∅ None false)
                      (Scenario.request "npm" Scenario.node_npm []) empty_repository))
       (bundle_id Scenario.fingerprint (Scenario.handler ∅ None false)
          (Scenario.request "npm" Scenario.node_npm [])).
Proof.
  assert (Hresult :
    result (handle Scenario.fingerprint Scenario.digest (Scenario.handler ∅ None false)
              (Scenario.request "npm" Scenario.node_npm []) empty_repository)
    = inr (response_for "npm|20.0.0|10.0.0|None|package.json={}" false)).
  { vm_compute. reflexivity. }
  split; [exact Hresult|].
  destruct (bundle_id_computed_once Scenario.fingerprint Scenario.digest
              (Scenario.handler ∅ None false)
              (Scenario.request "npm" Scenario.node_npm []) empty_repository)
    as (_ & _ & _ & _ & Hstored).
  apply (Hstored _ Hresult eq_refl).
Defined.

(** * Further properties of the orchestrator *)

Section OrchestratorProperties.

Variable calculate_bundle_hash : DependencySet -> string.
Variable hexdigest : bytes -> string.

#[local] Abbreviation handle := (handle calculate_bundle_hash hexdigest).
#[local] Abbreviation bundle_id := (bundle_id calculate_bundle_hash).
#[local] Abbreviation probe_trace := (probe_trace calculate_bundle_hash).

(** Once a request has been answered, its bundle is cached. *)
Lemma answered_is_cached self request repo response :
  result (handle self request repo) = inr response ->
  bundle_hash response = bundle_id self request
  /\ cached (repository (handle self request repo)) (bundle_id self request).
Proof.
  destruct (handle_outcomes calculate_bundle_hash hexdigest self request repo)
    as [(Hb & ->)|[(_ & e & _ & ->)|[(_ & method & _ & _ & ->)
        |(_ & method & repo' & _ & _ & Hc & ->)]]]; cbn [result repository];
    intros Hr; try discriminate; injection Hr as <-.
  - split; [reflexivity|]. apply has_bundle_cached, Hb.
  - split; [reflexivity|exact Hc].
Qed.

Lemma cached_is_hit self request repo :
  cached repo (bundle_id self request) ->
  handle self request repo
  = mkOutcome (inr (response_for (bundle_id self request) true)) repo
      (probe_trace self request repo).
Proof.
  intros Hc%has_bundle_cached. rewrite handle_run. cbv zeta. rewrite Hc. reflexivity.
Qed.

(** X1: submitting a request a second time, after it was answered, is a cache
    hit with the same bundle id; the second call makes only the probe calls
    (no scratch directory, no installer, no write) and leaves the repository as
    the first call left it. *)
Theorem second_request_is_a_hit self request repo response :
  let first := handle self request repo in
  let second := handle self request (repository first) in
  result first = inr response ->
  result second = inr (response_for (bundle_hash response) true)
  /\ repository second = repository first
  /\ (forall e, e ∈ trace second ->
        is_install_event e = false /\ is_storage_event e = false).
Proof.
  cbv zeta. intros Hr. apply answered_is_cached in Hr as (Hh & Hc).
  rewrite (cached_is_hit _ _ _ Hc), Hh. cbn [result repository trace].
  split; [reflexivity|]. split; [reflexivity|].
  intros e [-> | [-> | ->]]%probe_trace_events; split; reflexivity.
Qed.

(** X2: [custom_args] do not enter the bundle id: a request that differs from
    an answered one only in its custom arguments (the installer registry
    naming manifest and lockfile alike for both) gets the same bundle id and
    is answered from the cache, without any install. *)
Theorem custom_args_share_the_bundle self request repo response custom_args' :
  let request' := with_custom_args request custom_args' in
  let first := handle self request repo in
  let second := handle self request' (repository first) in
  manifest_name (installer_of self request') = manifest_name (installer_of self request) ->
  lockfile_name (installer_of self request') = lockfile_name (installer_of self request) ->
  result first = inr response ->
  bundle_id self request' = bundle_id self request
  /\ result second = inr (response_for (bundle_hash response) true)
  /\ (forall e, e ∈ trace second -> is_install_event e = false).
Proof.
  cbv zeta. intros Hmanifest Hlock Hr.
  assert (Hid : bundle_id self (with_custom_args request custom_args')
                = bundle_id self request).
  { unfold bundle_id, declared_set. rewrite Hmanifest, Hlock. reflexivity. }
  split; [exact Hid|].
  apply answered_is_cached in Hr as (Hh & Hc). rewrite <- Hid in Hc.
  rewrite (cached_is_hit _ _ _ Hc), Hh, Hid. cbn [result trace].
  split; [reflexivity|].
  intros e [-> | [-> | ->]]%probe_trace_events; reflexivity.
Qed.


End OrchestratorProperties.

Lemma second_request_is_a_hit_witness :
  result (handle Scenario.fingerprint Scenario.digest (Scenario.handler ∅ None false)
            (Scenario.request "npm" Scenario.node_npm [])
            (repository
               (handle Scenario.fingerprint Scenario.digest
                  (Scenario.handler ∅ None false)
                  (Scenario.request "npm" Scenario.node_npm []) empty_repository)))
  = inr (response_for "npm|20.0.0|10.0.0|None|package.json={}" true).
Proof.
  apply (second_request_is_a_hit Scenario.fingerprint Scenario.digest
           (Scenario.handler ∅ None false)
           (Scenario.request "npm" Scenario.node_npm []) empty_repository
           (response_for "npm|20.0.0|10.0.0|None|package.json={}" false)).
  vm_compute. reflexivity.
Defined.

Lemma custom_args_share_the_bundle_witness :
  bundle_id Scenario.fingerprint (Scenario.handler ∅ None false)
    (with_custom_args (Scenario.request "npm" Scenario.node_npm [])
       (Some ["--legacy-peer-deps"]))
  = bundle_id Scenario.fingerprint (Scenario.handler ∅ None false)
      (Scenario.request "npm" Scenario.node_npm []).
Proof.
  apply (custom_args_share_the_bundle Scenario.fingerprint Scenario.digest
           (Scenario.handler ∅ None false)
           (Scenario.request "npm" Scenario.node_npm []) empty_repository
           (response_for "npm|20.0.0|10.0.0|None|package.json={}" false)
           (Some ["--legacy-peer-deps"])).
  - reflexivity.
  - reflexivity.
  - vm_compute. reflexivity.
Defined.


(** * Further properties of the version handling *)

(** X4: every keyword [_get_version_kwargs] passes to [DependencySet] is one
    of its version keywords ([node_version] or [npm_version] for npm and yarn,
    [php_version] for composer, none for another manager), with a value some
    role of the request carries. *)
Theorem version_kwargs_are_known manager versions keyword value :
  _get_version_kwargs manager versions !! keyword = Some value ->
  ((manager = "npm" \/ manager = "yarn")
   /\ (keyword = "node_version" \/ keyword = "npm_version")
   \/ manager = "composer" /\ keyword = "php_version")
  /\ exists role, versions !! role = Some value.
Proof.
  unfold _get_version_kwargs.
  destruct (String.eqb_spec manager "npm") as [->|Hnpm];
    [|destruct (String.eqb_spec manager "yarn") as [->|Hyarn];
      [|destruct (String.eqb_spec manager "composer") as [->|Hcomposer]]];
    cbn [orb].
  1,2: destruct (versions !! "node") eqn:Hnode, (versions !! "runtime") eqn:Hruntime,
         (versions !! "npm") eqn:Hn, (versions !! "yarn") eqn:Hy,
         (versions !! "package_manager") eqn:Hp;
       intros Hl;
       repeat (apply lookup_insert_Some in Hl as [[<- <-]|[_ Hl]];
               [split; [left; split; eauto|eauto]|]);
       rewrite lookup_empty in Hl; discriminate.
  - destruct (versions !! "php") eqn:Hphp, (versions !! "runtime") eqn:Hruntime;
      intros Hl;
      repeat (apply lookup_insert_Some in Hl as [[<- <-]|[_ Hl]];
              [split; [right; split; reflexivity|eauto]|]);
      rewrite lookup_empty in Hl; discriminate.
  - rewrite lookup_empty. discriminate.
Qed.

Lemma version_kwargs_are_known_witness :
  ((("npm" = "npm" \/ "npm" = "yarn")
    /\ ("node_version" = "node_version" \/ "node_version" = "npm_version")
    \/ "npm" = "composer" /\ "node_version" = "php_version")
   /\ exists role, Scenario.node_npm !! role = Some "20.0.0").
Proof.
  apply (version_kwargs_are_known "npm" Scenario.node_npm "node_version" "20.0.0").
  vm_compute. reflexivity.
Defined.

(** X5: for npm and yarn the role [node] takes precedence over [runtime], and
    [npm] over [yarn] and [package_manager]: when the first is present, the
    value of the other does not change the keywords that are fingerprinted nor
    the tuple the version policy checks. *)
Theorem first_alias_takes_precedence manager versions other :
  manager = "npm" \/ manager = "yarn" ->
  (is_Some (versions !! "node") ->
     _get_version_kwargs manager (<["runtime" := other]> versions)
     = _get_version_kwargs manager versions
     /\ normalized_versions manager (<["runtime" := other]> versions)
        = normalized_versions manager versions)
  /\ (is_Some (versions !! "npm") ->
     _get_version_kwargs manager (<["yarn" := other]> versions)
     = _get_version_kwargs manager versions
     /\ _get_version_kwargs manager (<["package_manager" := other]> versions)
        = _get_version_kwargs manager versions
     /\ normalized_versions manager (<["yarn" := other]> versions)
        = normalized_versions manager versions
     /\ normalized_versions manager (<["package_manager" := other]> versions)
        = normalized_versions manager versions).
Proof.
  intros Hm.
  assert (Htest : String.eqb manager "npm" || String.eqb manager "yarn" = true).
  { destruct Hm as [-> | ->]; reflexivity. }
  unfold _get_version_kwargs, normalized_versions. rewrite Htest.
  split.
  - intros [v Hnode].
    rewrite (lookup_insert_ne versions "runtime" "node"),
      (lookup_insert_ne versions "runtime" "npm"),
      (lookup_insert_ne versions "runtime" "yarn"),
      (lookup_insert_ne versions "runtime" "package_manager") by discriminate.
    rewrite Hnode. split; reflexivity.
  - intros [v Hnpm].
    rewrite (lookup_insert_ne versions "yarn" "node"),
      (lookup_insert_ne versions "yarn" "runtime"),
      (lookup_insert_ne versions "yarn" "npm"),
      (lookup_insert_ne versions "package_manager" "node"),
      (lookup_insert_ne versions "package_manager" "runtime"),
      (lookup_insert_ne versions "package_manager" "npm") by discriminate.
    rewrite Hnpm. repeat split; reflexivity.
Qed.

Lemma first_alias_takes_precedence_witness :
  _get_version_kwargs "npm" (<["runtime" := "18.0.0"]> Scenario.node_npm)
  = _get_version_kwargs "npm" Scenario.node_npm
  /\ normalized_versions "npm" (<["runtime" := "18.0.0"]> Scenario.node_npm)
     = normalized_versions "npm" Scenario.node_npm.
Proof.
  destruct (first_alias_takes_precedence "npm" Scenario.node_npm "18.0.0"
              (or_introl eq_refl)) as (Hnode & _).
  apply Hnode. vm_compute. eauto.
Defined.

Lemma normalized_versions_roles manager versions role :
  known_manager manager ->
  is_Some (normalized_versions manager versions !! role) -> policy_role role.
Proof.
  unfold known_manager, policy_role, normalized_versions.
  intros [-> | [-> | ->]]; cbn [String.eqb Ascii.eqb Bool.eqb orb].
  1,2: destruct (versions !! "node"), (versions !! "runtime"), (versions !! "npm"),
         (versions !! "yarn"), (versions !! "package_manager");
       intros [v Hl];
       repeat (apply lookup_insert_Some in Hl as [[<- _]|[_ Hl]]; [tauto|]);
       rewrite lookup_empty in Hl; discriminate.
  destruct (versions !! "php"), (versions !! "runtime");
    intros [v Hl];
    repeat (apply lookup_insert_Some in Hl as [[<- _]|[_ Hl]]; [tauto|]);
    rewrite lookup_empty in Hl; discriminate.
Qed.

(** X6: for npm, yarn and composer the version policy compares support
    entries with the renamed tuple only, so an entry that names any role other
    than [runtime] or [package_manager] (such as [node] or [php]) matches no
    request: a support list made of such entries rejects every version tuple. *)
Theorem entries_outside_the_schema_reject self manager supported_list versions :
  known_manager manager ->
  supported_versions self !! manager = Some supported_list ->
  supported_list <> [] ->
  (forall entry, entry ∈ supported_list ->
     exists role, is_Some (entry !! role) /\ ~ policy_role role) ->
  _is_version_supported self manager versions = false.
Proof.
  intros Hknown Hlist Hne Hroles.
  unfold _is_version_supported. rewrite Hlist.
  destruct supported_list as [|supported rest]; [contradiction|].
  apply not_true_is_false. intros (entry & Hin & Hmatch)%first_match_refines.
  destruct (Hroles entry Hin) as (role & [value Hrole] & Hout).
  apply Hout, (normalized_versions_roles manager versions); [exact Hknown|].
  exists value. apply Hmatch, Hrole.
Qed.

Lemma entries_outside_the_schema_reject_witness :
  _is_version_supported
    (Scenario.handler (<["npm" := [Scenario.node_npm]]> ∅) None false)
    "npm" Scenario.node_npm = false.
Proof.
  apply (entries_outside_the_schema_reject
           (Scenario.handler (<["npm" := [Scenario.node_npm]]> ∅) None false)
           "npm" [Scenario.node_npm] Scenario.node_npm).
  - left. reflexivity.
  - vm_compute. reflexivity.
  - discriminate.
  - intros entry Hin. apply list_elem_of_singleton in Hin. subst entry.
    exists "node". split.
    + exists "20.0.0". vm_compute. reflexivity.
    + intros [H|H]; discriminate.
Defined.

(** X7: once a manager has a non-empty support list, adding entries to it, in
    any position, never withdraws support: a tuple supported under a list is
    supported under every list that contains its entries. *)
Theorem support_is_monotone self self' manager supported_list supported_list' versions :
  supported_versions self !! manager = Some supported_list ->
  supported_versions self' !! manager = Some supported_list' ->
  supported_list <> [] ->
  (forall entry, entry ∈ supported_list -> entry ∈ supported_list') ->
  _is_version_supported self manager versions = true ->
  _is_version_supported self' manager versions = true.
Proof.
  unfold _is_version_supported. intros -> -> Hne Hsub.
  destruct supported_list as [|supported rest]; [contradiction|].
  destruct supported_list' as [|supported' rest']; [reflexivity|].
  rewrite !first_match_refines. intros (entry & Hin & Hmatch).
  exists entry. split; [apply Hsub, Hin|exact Hmatch].
Qed.

Lemma support_is_monotone_witness :
  _is_version_supported
    (Scenario.handler
       (<["npm" := [Scenario.runtime_package_manager;
                    <["runtime" := "18.0.0"]> ∅]]> ∅) None false)
    "npm" Scenario.node_npm = true.
Proof.
  apply (support_is_monotone
           (Scenario.handler (<["npm" := [Scenario.runtime_package_manager]]> ∅)
              None false)
           (Scenario.handler
              (<["npm" := [Scenario.runtime_package_manager;
                           <["runtime" := "18.0.0"]> ∅]]> ∅) None false)
           "npm" [Scenario.runtime_package_manager]
           [Scenario.runtime_package_manager; <["runtime" := "18.0.0"]> ∅]
           Scenario.node_npm).
  - vm_compute. reflexivity.
  - vm_compute. reflexivity.
  - discriminate.
  - intros entry Hin. apply list_elem_of_singleton in Hin. subst entry.
    apply list_elem_of_here.
  - vm_compute. reflexivity.
Defined.

(** * Further properties of the storage step and of the endpoint *)

Section StorageProperties.

Variable hexdigest : bytes -> string.

Lemma index_of_last files : forall index_data path,
  index_of hexdigest files index_data !! path
  = match last_with_path path files with
    | Some file => Some (hexdigest (content file))
    | None => index_data !! path
    end.
Proof.
  induction files as [|file rest IH]; intros index_data path; [reflexivity|].
  rewrite index_of_cons, IH. cbn [last_with_path].
  destruct (last_with_path path rest); [reflexivity|].
  destruct (String.eqb_spec (relative_path file) path) as [<-|Hne].
  - apply lookup_insert_eq.
  - apply lookup_insert_ne, Hne.
Qed.

(** X8: the storage step calls [store_blob] once for every file, in order,
    and when several files carry the same path the index it saves maps that
    path to the digest of the last of them; a path no file carries is not in
    the index. *)
Theorem last_file_of_a_path_is_indexed dependency_set h repo :
  let o := _store_dependency_set hexdigest dependency_set h repo in
  exists index_data,
    trace o
    = map (blob_event hexdigest) (ds_files dependency_set)
      ++ [ESaveIndex h (ds_manager dependency_set)
            (manager_version_of dependency_set) index_data;
          EGenerateBundleZip h]
    /\ forall path,
         index_data !! path
         = (fun file => hexdigest (content file))
             <$> last_with_path path (ds_files dependency_set).
Proof.
  cbv zeta.
  destruct (store_dependency_set_run hexdigest dependency_set h repo)
    as (repo' & _ & ->).
  eexists. split; [reflexivity|].
  intros path. rewrite index_of_last.
  destruct (last_with_path path (ds_files dependency_set)); [reflexivity|].
  apply lookup_empty.
Qed.

End StorageProperties.

Section EndpointProperties.

Variable calculate_bundle_hash : DependencySet -> string.
Variable hexdigest : bytes -> string.
Variable factory : InstallerFactory.
Variable json_loads_versions : string -> option Versions.
Variable json_loads_custom_args : string -> string + option (list string).

#[local] Abbreviation endpoint :=
  (cache_dependencies calculate_bundle_hash hexdigest factory
     json_loads_versions json_loads_custom_args).
#[local] Abbreviation read :=
  (read_request json_loads_versions json_loads_custom_args).

Lemma truthy_opt_bytes_nonempty o :
  truthy_opt_bytes o = true -> default [] o <> [].
Proof. destruct o as [[|byte rest]|]; cbn; intros H; congruence. Qed.

(** X9: a request that passes the validation of the endpoint and reaches the
    handler has the manager of the form, which is npm, composer or yarn, the
    versions the [versions] field decodes to, and a manifest that is not
    empty; the form carried at least one file. *)
Theorem validated_request_is_well_formed form request :
  read form = inr request ->
  manager request = form_manager form
  /\ known_manager (manager request)
  /\ json_loads_versions (form_versions form) = Some (versions request)
  /\ manifest_content request <> []
  /\ form_file form <> [].
Proof.
  unfold read_request, known_manager.
  destruct (json_loads_versions (form_versions form)) as [versions_dict|];
    [|discriminate].
  destruct (match form_custom_args form with
            | Some custom_args => _
            | None => _
            end) as [e|custom_args_list]; [discriminate|].
  destruct (String.eqb_spec (form_manager form) "npm") as [Hnpm|Hnpm];
    [|destruct (String.eqb_spec (form_manager form) "composer") as [Hcomposer|Hcomposer];
      [|destruct (String.eqb_spec (form_manager form) "yarn") as [Hyarn|Hyarn];
        [|discriminate]]];
    cbn [orb negb];
    (destruct (form_file form) as [|uploaded rest] eqn:Hfile; [discriminate|]);
    (destruct (read_files _ _ _ _ _) as [msg|[manifest lockfile]]; [discriminate|]);
    (destruct (truthy_opt_bytes manifest) eqn:Hmanifest; cbn [negb]; [|discriminate]);
    intros [= <-]; cbn [manager versions manifest_content];
    (split; [reflexivity|]); (split; [tauto|]); (split; [reflexivity|]);
    (split; [apply truthy_opt_bytes_nonempty, Hmanifest|discriminate]).
Qed.

End EndpointProperties.

Lemma validated_request_is_well_formed_witness :
  manager (Scenario.request "npm" Scenario.node_npm []) = form_manager (Scenario.form "0000")
  /\ known_manager (manager (Scenario.request "npm" Scenario.node_npm []))
  /\ Scenario.loads_versions (form_versions (Scenario.form "0000"))
     = Some (versions (Scenario.request "npm" Scenario.node_npm []))
  /\ manifest_content (Scenario.request "npm" Scenario.node_npm []) <> []
  /\ form_file (Scenario.form "0000") <> [].
Proof.
  apply (validated_request_is_well_formed Scenario.loads_versions
           Scenario.loads_custom_args (Scenario.form "0000")
           (Scenario.request "npm" Scenario.node_npm [])).
  vm_compute. reflexivity.
Defined.

Section EndpointOutcomes.

Variable calculate_bundle_hash : DependencySet -> string.
Variable hexdigest : bytes -> string.
Variable factory : InstallerFactory.
Variable json_loads_versions : string -> option Versions.
Variable json_loads_custom_args : string -> string + option (list string).

#[local] Abbreviation endpoint :=
  (cache_dependencies calculate_bundle_hash hexdigest factory
     json_loads_versions json_loads_custom_args).
#[local] Abbreviation read :=
  (read_request json_loads_versions json_loads_custom_args).

Lemma read_files_folded files1 : forall files2 manifest_name lockfile_name manifest lockfile,
  map folded_part files1 = map folded_part files2 ->
  read_files files1 manifest_name lockfile_name manifest lockfile
  = read_files files2 manifest_name lockfile_name manifest lockfile.
Proof.
  induction files1 as [|file1 rest1 IH]; intros [|file2 rest2] manifest_name lockfile_name
    manifest lockfile Hmap; try discriminate; [reflexivity|].
  cbn [map] in Hmap. unfold folded_part at 1 3 in Hmap.
  injection Hmap as Hname Hbody Hrest.
  cbn [read_files]. rewrite Hbody.
  destruct (filename file1) as [name1|], (filename file2) as [name2|];
    try discriminate; [|reflexivity].
  cbn [fmap option_fmap option_map] in Hname. injection Hname as ->.
  repeat match goal with |- context [if ?c then _ else _] => destruct c end;
    apply IH, Hrest.
Qed.


(** X11: when the endpoint answers with a response body, the form was read as
    a request, the download URL is the configured base URL followed by
    [/download/<bundle id>.zip] for the bundle id of that request, and the
    [cache_hit] flag tells whether index and archive of that bundle were
    present when the request arrived. *)
Theorem response_names_the_bundle app cfg repo form dto :
  let handler := handler_of factory app cfg in
  config app = Some cfg ->
  cache_repository app = Some repo ->
  response (endpoint app form) = inr dto ->
  exists request,
    read form = inr request
    /\ dto_download_url dto
       = (base_url cfg ++ "/download/"
          ++ bundle_id calculate_bundle_hash handler request ++ ".zip")%string
    /\ (cache_hit dto = true
        <-> cached repo (bundle_id calculate_bundle_hash handler request)).
Proof.
  cbv zeta. intros Hconfig Hrepo. unfold cache_dependencies.
  rewrite Hconfig, Hrepo.
  destruct (read form) as [e|request]; [discriminate|].
  fold (handler_of factory app cfg). cbn [response].
  destruct (handle_outcomes calculate_bundle_hash hexdigest
              (handler_of factory app cfg) request repo)
    as [(Hb & ->)|[(_ & e & _ & ->)|[(_ & method & _ & _ & ->)
        |(Hb & method & repo' & _ & _ & _ & ->)]]]; cbn [result].
  - intros [= <-]. exists request. split; [reflexivity|]. split; [reflexivity|].
    cbn [cache_hit is_cache_hit response_for]. rewrite <- has_bundle_cached. tauto.
  - destruct e; discriminate.
  - discriminate.
  - intros [= <-]. exists request. split; [reflexivity|]. split; [reflexivity|].
    cbn [cache_hit is_cache_hit response_for]. rewrite <- has_bundle_cached, Hb.
    split; discriminate.
Qed.

(** X12: when the installer reports failure for a request that misses the
    cache, the endpoint answers with status 500 and the detail
    [Internal server error: Installation failed: <message of the installer>],
    and the repository is left as it was. *)
Theorem failed_install_is_a_server_error app cfg repo form request method :
  let handler := handler_of factory app cfg in
  config app = Some cfg ->
  cache_repository app = Some repo ->
  read form = inr request ->
  ~ cached repo (bundle_id calculate_bundle_hash handler request) ->
  _determine_installation_method handler (manager request) (versions request)
  = inr method ->
  success (install_result handler request method) = false ->
  response (endpoint app form)
  = inl (mkHTTPException 500
           ("Internal server error: Installation failed: "
            ++ str_opt (error_message (install_result handler request method))))
  /\ repository_after (endpoint app form) = Some repo.
Proof.
  cbv zeta. intros Hconfig Hrepo Hread Hmiss%not_cached_miss Hmethod Hfail.
  unfold cache_dependencies. rewrite Hconfig, Hrepo, Hread.
  fold (handler_of factory app cfg).
  rewrite handle_run. cbv zeta. rewrite Hmiss, Hmethod, Hfail.
  split; reflexivity.
Qed.

End EndpointOutcomes.


Lemma response_names_the_bundle_witness :
  exists request,
    read_request Scenario.loads_versions Scenario.loads_custom_args (Scenario.form "0000")
    = inr request
    /\ "http://localhost:8000/download/npm|20.0.0|10.0.0|None|package.json={}.zip"
       = (base_url (Scenario.configuration ∅ false) ++ "/download/"
          ++ bundle_id Scenario.fingerprint
               (handler_of Scenario.factory (Scenario.app ∅ false)
                  (Scenario.configuration ∅ false)) request ++ ".zip")%string
    /\ (false = true
        <-> cached empty_repository
              (bundle_id Scenario.fingerprint
                 (handler_of Scenario.factory (Scenario.app ∅ false)
                    (Scenario.configuration ∅ false)) request)).
Proof.
  apply (response_names_the_bundle Scenario.fingerprint Scenario.digest
           Scenario.factory Scenario.loads_versions Scenario.loads_custom_args
           (Scenario.app ∅ false) (Scenario.configuration ∅ false) empty_repository
           (Scenario.form "0000")
           {| dto_download_url :=
                "http://localhost:8000/download/npm|20.0.0|10.0.0|None|package.json={}.zip";
              cache_hit := false |}).
  - reflexivity.
  - reflexivity.
  - vm_compute. reflexivity.
Defined.

Lemma failed_install_is_a_server_error_witness :
  response
    (cache_dependencies Scenario.fingerprint Scenario.digest Failing.factory
       Scenario.loads_versions Scenario.loads_custom_args
       (Scenario.app ∅ false) (Scenario.form "0000"))
  = inl (mkHTTPException 500
           ("Internal server error: Installation failed: "
            ++ str_opt
                 (error_message
                    (install_result
                       (handler_of Failing.factory (Scenario.app ∅ false)
                          (Scenario.configuration ∅ false))
                       (Scenario.request "npm" Scenario.node_npm []) "native"))))
  /\ repository_after
       (cache_dependencies Scenario.fingerprint Scenario.digest Failing.factory
          Scenario.loads_versions Scenario.loads_custom_args
          (Scenario.app ∅ false) (Scenario.form "0000"))
     = Some empty_repository.
Proof.
  apply (failed_install_is_a_server_error Scenario.fingerprint Scenario.digest
           Failing.factory Scenario.loads_versions Scenario.loads_custom_args
           (Scenario.app ∅ false) (Scenario.configuration ∅ false) empty_repository
           (Scenario.form "0000") (Scenario.request "npm" Scenario.node_npm [])
           "native").
  - reflexivity.
  - reflexivity.
  - vm_compute. reflexivity.
  - intros [[index Hindex] _]. cbn in Hindex. rewrite lookup_empty in Hindex.
    discriminate.
  - vm_compute. reflexivity.
  - reflexivity.
Defined.

(** * Properties of the configuration and of the API key check *)

Lemma rstrip_decompose c s : exists n, s = (rstrip c s ++ run_of c n)%string.
Proof.
  induction s as [|a rest [n IH]]; [exists 0; reflexivity|].
  cbn [rstrip]. destruct (rstrip c rest) as [|b stripped] eqn:Hrest.
  - change (rest = run_of c n) in IH. destruct (Ascii.eqb_spec a c) as [->|Hne].
    + exists (S n). change (String c rest = String c (run_of c n)). congruence.
    + exists n. change (String a rest = String a (run_of c n)). congruence.
  - exists n. change (String a rest = String a (String b stripped ++ run_of c n)%string).
    congruence.
Qed.

Lemma rstrip_last c s : last_char (rstrip c s) <> Some c.
Proof.
  induction s as [|a rest IH]; [discriminate|].
  cbn [rstrip]. destruct (rstrip c rest) as [|b stripped] eqn:Hrest.
  - destruct (Ascii.eqb_spec a c) as [->|Hne]; cbn; congruence.
  - exact IH.
Qed.

Lemma rstrip_fixed c s : last_char s <> Some c -> rstrip c s = s.
Proof.
  induction s as [|a rest IH]; [reflexivity|].
  intros Hlast. cbn [rstrip]. destruct rest as [|b rest'].
  - cbn. destruct (Ascii.eqb_spec a c) as [->|Hne]; [contradiction|reflexivity].
  - rewrite IH by exact Hlast. reflexivity.
Qed.

(** X13: the configuration stores the base URL without its trailing slashes:
    the stored value does not end in a slash, the given one is the stored one
    followed by slashes only, and a value that does not end in a slash is
    stored as it is. *)
Theorem base_url_is_stored_without_trailing_slashes
    cache_dir supported_versions use_docker is_public api_keys url :
  let stored :=
    base_url (Config_init cache_dir supported_versions use_docker is_public
                api_keys url) in
  last_char stored <> Some "/"%char
  /\ (exists n, url = (stored ++ run_of "/" n)%string)
  /\ (last_char url <> Some "/"%char -> stored = url).
Proof.
  cbv zeta. cbn [Config_init base_url].
  split; [apply rstrip_last|]. split; [apply rstrip_decompose|apply rstrip_fixed].
Qed.

Lemma prefix_append s t : String.prefix s (s ++ t) = true.
Proof.
  induction s as [|a s IH]; [destruct t; reflexivity|].
  change (String.prefix (String a s) (String a (s ++ t)) = true).
  cbn [String.prefix]. destruct (ascii_dec a a); [exact IH|contradiction].
Qed.

Lemma prefix_split s : forall t,
  String.prefix s t = true -> exists rest, t = (s ++ rest)%string.
Proof.
  induction s as [|a s IH]; intros t Hp; [exists t; reflexivity|].
  destruct t as [|b t]; [discriminate|]. cbn [String.prefix] in Hp.
  destruct (ascii_dec a b) as [->|]; [|discriminate].
  destruct (IH _ Hp) as [rest ->]. exists rest. reflexivity.
Qed.

Lemma truthy_bearer key : truthy_str ("Bearer " ++ key) = true.
Proof. reflexivity. Qed.

Lemma after_first_space_bearer key : after_first_space ("Bearer " ++ key) = Some key.
Proof. reflexivity. Qed.

Lemma bearer_injective key key' :
  ("Bearer " ++ key)%string = ("Bearer " ++ key')%string -> key = key'.
Proof. intros H. injection H as H. exact H. Qed.

Lemma bearer_key_passes g cfg validator key :
  g_config g = Some cfg ->
  is_public cfg = false ->
  g_api_key_validator g = Some validator ->
  validate validator key = true ->
  validate_api_key g (Some ("Bearer " ++ key)%string) = None.
Proof.
  intros Hconfig Hpublic Hvalidator Hvalid. unfold validate_api_key.
  rewrite Hconfig, Hpublic, Hvalidator.
  cbn [negb truthy_opt_str default from_option id].
  rewrite truthy_bearer, prefix_append, after_first_space_bearer, Hvalid. reflexivity.
Qed.

(** X14: on a server that is not public and has a validator, the API key
    check lets a request pass exactly when its Authorization header is
    [Bearer ] followed by a key the validator accepts (the key being all that
    follows the first space); a request without the header, and any request it
    turns away, gets status 401. *)
Theorem api_key_check_accepts_bearer_keys g cfg validator authorization :
  g_config g = Some cfg ->
  is_public cfg = false ->
  g_api_key_validator g = Some validator ->
  (validate_api_key g (Some authorization) = None
   <-> exists key,
         authorization = ("Bearer " ++ key)%string /\ validate validator key = true)
  /\ (forall e, validate_api_key g (Some authorization) = Some e -> status_of e = 401)
  /\ validate_api_key g None
     = Some (mkHTTPException 401 "Missing Authorization Bearer <APIKEY>").
Proof.
  intros Hconfig Hpublic Hvalidator. unfold validate_api_key.
  rewrite Hconfig, Hpublic, Hvalidator.
  cbn [negb truthy_opt_str default from_option id].
  split; [|split; [|reflexivity]].
  - destruct (String.prefix "Bearer " authorization) eqn:Hprefix.
    + apply prefix_split in Hprefix as [key ->].
      rewrite truthy_bearer, after_first_space_bearer. cbn [negb].
      destruct (validate validator key) eqn:Hvalid; cbn [negb].
      * split; [|reflexivity]. intros _. exists key. split; [reflexivity|exact Hvalid].
      * split; [discriminate|]. intros (key' & Heq & Hvalid').
        apply bearer_injective in Heq. congruence.
    + split.
      * destruct (truthy_str authorization); discriminate.
      * intros (key & -> & _). rewrite prefix_append in Hprefix. discriminate.
  - intros e. destruct (String.prefix "Bearer " authorization) eqn:Hprefix.
    + apply prefix_split in Hprefix as [key ->].
      rewrite truthy_bearer, after_first_space_bearer. cbn [negb].
      destruct (validate validator key); cbn [negb]; [discriminate|].
      intros [= <-]. reflexivity.
    + destruct (truthy_str authorization); cbn [negb]; intros [= <-]; reflexivity.
Qed.

Lemma api_key_check_accepts_bearer_keys_witness :
  validate_api_key Uploads.private_globals (Some "Bearer s3cret") = None.
Proof.
  destruct (api_key_check_accepts_bearer_keys Uploads.private_globals
              Uploads.private_config Uploads.one_key "Bearer s3cret"
              eq_refl eq_refl eq_refl) as (Haccepts & _).
  apply Haccepts. exists "s3cret". split; reflexivity.
Defined.

Section StartupProperties.

Variable ApiKeyValidator_new : list string -> ApiKeyValidator.
Variable FileSystemCacheRepository_new : string -> FileSystemCacheRepository.
Variable DockerUtils_new : DockerUtils.

#[local] Abbreviation initialize_app := (initialize_app ApiKeyValidator_new).
#[local] Abbreviation lifespan_startup :=
  (lifespan_startup FileSystemCacheRepository_new DockerUtils_new).

(** X15: a server initialised as not public with no API keys (none given, or
    an empty list), and no validator set before, turns away every request,
    whatever its Authorization header, with status 500 and the detail
    [Server configuration error]. *)
Theorem private_server_without_keys_locks_out
    g cache_dir supported_versions use_docker api_keys url authorization :
  g_api_key_validator g = None ->
  truthy_keys api_keys = false ->
  validate_api_key
    (initialize_app g cache_dir supported_versions use_docker false api_keys url)
    authorization
  = Some (mkHTTPException 500 "Server configuration error").
Proof.
  intros Hnone Hkeys. unfold validate_api_key, initialize_app.
  cbn [g_config g_api_key_validator Config_init is_public negb andb].
  rewrite Hkeys, Hnone. reflexivity.
Qed.


End StartupProperties.

Section StartupOrder.

Variable calculate_bundle_hash : DependencySet -> string.
Variable hexdigest : bytes -> string.
Variable factory : InstallerFactory.
Variable json_loads_versions : string -> option Versions.
Variable json_loads_custom_args : string -> string + option (list string).
Variable ApiKeyValidator_new : list string -> ApiKeyValidator.
Variable FileSystemCacheRepository_new : string -> FileSystemCacheRepository.
Variable DockerUtils_new : DockerUtils.

#[local] Abbreviation endpoint :=
  (cache_dependencies calculate_bundle_hash hexdigest factory
     json_loads_versions json_loads_custom_args).
#[local] Abbreviation initialize_app := (initialize_app ApiKeyValidator_new).
#[local] Abbreviation lifespan_startup :=
  (lifespan_startup FileSystemCacheRepository_new DockerUtils_new).


End StartupOrder.

Lemma private_server_without_keys_locks_out_witness :
  validate_api_key
    (initialize_app Uploads.validator_of fresh_globals "/var/cache/dep" ∅ false false
       None "http://localhost:8000")
    (Some "Bearer s3cret")
  = Some (mkHTTPException 500 "Server configuration error").
Proof.
  apply (private_server_without_keys_locks_out Uploads.validator_of fresh_globals
           "/var/cache/dep" ∅ false None "http://localhost:8000"
           (Some "Bearer s3cret")); reflexivity.
Defined.


(** * Properties of the download endpoint *)

Lemma read_chunks_concat size turns : forall data : bytes,
  0 < size -> length data < turns ->
  concat (read_chunks turns size data) = data.
Proof.
  induction turns as [|turns IH]; intros data Hsize Hturns; [lia|].
  cbn [read_chunks]. destruct data as [|byte rest].
  - rewrite take_nil. reflexivity.
  - destruct size as [|size]; [lia|].
    cbn [take]. cbn [concat]. rewrite IH.
    + cbn [drop app]. f_equal. apply take_drop.
    + lia.
    + cbn [drop]. rewrite length_drop. cbn [length] in Hturns. lia.
Qed.

Lemma read_chunks_full size turns : forall data : bytes,
  0 < size -> length data < turns ->
  full_but_last size (read_chunks turns size data).
Proof.
  induction turns as [|turns IH]; intros data Hsize Hturns; [lia|].
  cbn [read_chunks]. destruct data as [|byte rest]; [rewrite take_nil; exact I|].
  destruct size as [|size]; [lia|].
  cbn [take]. cbn [full_but_last].
  assert (Hrest : length (drop (S size) (byte :: rest)) < turns).
  { cbn [drop]. rewrite length_drop. cbn [length] in Hturns. lia. }
  specialize (IH (drop (S size) (byte :: rest)) Hsize Hrest).
  destruct (read_chunks turns (S size) (drop (S size) (byte :: rest)))
    as [|chunk chunks] eqn:Hnext.
  - cbn [length]. rewrite length_take. lia.
  - split; [|exact IH].
    cbn [length]. rewrite length_take.
    destruct turns as [|turns']; [discriminate|].
    cbn [read_chunks] in Hnext. cbn [drop] in Hnext.
    destruct (drop size rest) as [|byte' rest'] eqn:Hdrop;
      [rewrite take_nil in Hnext; discriminate|].
    assert (length (drop size rest) > 0) by (rewrite Hdrop; cbn; lia).
    rewrite length_drop in H. lia.
Qed.

Lemma chunk_size_positive : 0 < chunk_size.
Proof. apply Nat.ltb_lt. vm_compute. reflexivity. Qed.

Lemma iterfile_spec data :
  concat (iterfile data) = data /\ full_but_last chunk_size (iterfile data).
Proof.
  unfold iterfile. fold chunk_size.
  split; [apply read_chunks_concat|apply read_chunks_full];
    auto using chunk_size_positive.
Qed.

Section DownloadProperties.

Variable zip_bytes : gmap string bytes -> bytes.

#[local] Abbreviation download_bundle := (download_bundle zip_bytes).

(** X18: the download endpoint answers 404 exactly when the repository has no
    archive for the bundle id; otherwise it streams the archive: the chunks,
    put end to end, are the bytes of the ZIP file, every chunk but the last has
    8192 bytes, none is empty, and the response is typed [application/zip]
    with the file name [<bundle id>.zip]. *)
Theorem download_streams_the_archive repo bundle_hash :
  match bundles repo !! bundle_hash with
  | None =>
      download_bundle (Some repo) bundle_hash
      = inl (mkHTTPException 404 "Bundle not found")
  | Some entries =>
      exists streamed,
        download_bundle (Some repo) bundle_hash = inr streamed
        /\ concat (chunks streamed) = zip_bytes entries
        /\ full_but_last chunk_size (chunks streamed)
        /\ media_type streamed = "application/zip"
        /\ headers streamed
           = [("Content-Disposition",
               ("attachment; filename=" ++ bundle_hash ++ ".zip")%string)]
  end.
Proof.
  unfold download_bundle, bundle_zip_file.
  destruct (bundles repo !! bundle_hash) as [entries|]; [|reflexivity].
  cbn [fmap option_fmap option_map]. eexists. split; [reflexivity|].
  cbn [chunks media_type headers].
  destruct (iterfile_spec (zip_bytes entries)) as (Hconcat & Hfull).
  repeat split; assumption.
Qed.

End DownloadProperties.

Section ServedBundles.

Variable calculate_bundle_hash : DependencySet -> string.
Variable hexdigest : bytes -> string.
Variable zip_bytes : gmap string bytes -> bytes.

(** X19: a bundle the orchestrator has answered for, hit or miss, can be
    downloaded from the repository it leaves: the download endpoint finds the
    archive under the bundle id of the response and streams its bytes. *)
Theorem answered_bundle_can_be_downloaded self request repo response :
  let o := handle calculate_bundle_hash hexdigest self request repo in
  result o = inr response ->
  exists entries streamed,
    bundles (repository o) !! bundle_hash response = Some entries
    /\ download_bundle zip_bytes (Some (repository o)) (bundle_hash response)
       = inr streamed
    /\ concat (chunks streamed) = zip_bytes entries.
Proof.
  cbv zeta. intros Hr.
  apply answered_is_cached in Hr as (-> & _ & [entries Harchive]).
  exists entries. unfold download_bundle, bundle_zip_file. rewrite Harchive.
  cbn [fmap option_fmap option_map]. eexists. split; [reflexivity|].
  split; [reflexivity|]. cbn [chunks]. apply iterfile_spec.
Qed.

End ServedBundles.

Lemma answered_bundle_can_be_downloaded_witness :
  exists entries streamed,
    bundles
      (repository
         (handle Scenario.fingerprint Scenario.digest (Scenario.handler ∅ None false)
            (Scenario.request "npm" Scenario.node_npm []) empty_repository))
      !! bundle_hash (response_for "npm|20.0.0|10.0.0|None|package.json={}" false)
    = Some entries
    /\ download_bundle Uploads.zip
         (Some (repository
                  (handle Scenario.fingerprint Scenario.digest
                     (Scenario.handler ∅ None false)
                     (Scenario.request "npm" Scenario.node_npm []) empty_repository)))
         (bundle_hash (response_for "npm|20.0.0|10.0.0|None|package.json={}" false))
       = inr streamed
    /\ concat (chunks streamed) = Uploads.zip entries.
Proof.
  apply (answered_bundle_can_be_downloaded Scenario.fingerprint Scenario.digest
           Uploads.zip (Scenario.handler ∅ None false)
           (Scenario.request "npm" Scenario.node_npm []) empty_repository
           (response_for "npm|20.0.0|10.0.0|None|package.json={}" false)).
  vm_compute. reflexivity.
Defined.

(** * Properties of [_collect_files] *)

Section NodeInduction.

Variable P : Node -> Prop.
Hypothesis P_file : forall content, P (NFile content).
Hypothesis P_dir : forall entries, Forall (fun entry => P entry.2) entries -> P (NDir entries).

Fixpoint Node_rect_nested (node : Node) : P node :=
  match node with
  | NFile content => P_file content
  | NDir entries =>
      P_dir entries
        ((fix all (es : list (string * Node)) : Forall (fun entry => P entry.2) es :=
            match es with
            | [] => @List.Forall_nil _ (fun entry => P entry.2)
            | entry :: rest =>
                @List.Forall_cons _ (fun entry => P entry.2) entry rest
                  (Node_rect_nested entry.2) (all rest)
            end) entries)
  end.

End NodeInduction.

Lemma files_of_member prefix entries path content :
  {| fd_relative_path := path; fd_content := content |} ∈ files_of prefix entries
  <-> exists name, path = (prefix ++ name)%string /\ (name, NFile content) ∈ entries.
Proof.
  unfold files_of. rewrite list_elem_of_omap. split.
  - intros ([name [c|sub]] & Hin & Heq); cbn in Heq; [|discriminate].
    injection Heq as <- <-. exists name. split; [reflexivity|exact Hin].
  - intros (name & -> & Hin). exists (name, NFile content). split; [exact Hin|reflexivity].
Qed.

Lemma string_append_assoc (s t u : string) :
  ((s ++ t) ++ u)%string = (s ++ t ++ u)%string.
Proof.
  induction s as [|a s IH]; [reflexivity|].
  change (String a ((s ++ t) ++ u) = String a (s ++ t ++ u))%string.
  f_equal. exact IH.
Qed.

Lemma append_assoc3 prefix name path :
  ((prefix ++ name ++ "/") ++ path)%string = (prefix ++ name ++ "/" ++ path)%string.
Proof. rewrite !string_append_assoc. reflexivity. Qed.

Lemma elem_of_flat_map {A B} (f : A -> list B) (l : list A) (y : B) :
  y ∈ flat_map f l <-> exists x, x ∈ l /\ y ∈ f x.
Proof.
  rewrite list_elem_of_In, in_flat_map. split; intros (x & Hx & Hy); exists x;
    rewrite ?list_elem_of_In in *; tauto.
Qed.

Lemma walk_member node : forall prefix path content,
  {| fd_relative_path := path; fd_content := content |} ∈ walk prefix node
  <-> exists relative, path = (prefix ++ relative)%string /\ file_at node relative content.
Proof.
  induction node as [c|entries IH] using Node_rect_nested; intros prefix path content.
  - cbn [walk]. split; [intros H; inversion H|intros (? & _ & H); inversion H].
  - cbn [walk]. rewrite elem_of_app, files_of_member, elem_of_flat_map. split.
    + intros [(name & -> & Hin)|([name child] & Hin & Hwalk)].
      * exists name. split; [reflexivity|apply file_here, Hin].
      * rewrite Forall_forall in IH. apply (IH _ Hin) in Hwalk as (relative & -> & Hat).
        cbn [fst snd] in *. destruct child as [c|sub]; [inversion Hat|].
        exists (name ++ "/" ++ relative)%string.
        split; [apply append_assoc3|eapply file_below; eassumption].
    + intros (relative & -> & Hat). inversion Hat as [es name c Hin|es name sub rel c Hin Hsub]; subst.
      * left. exists relative. split; [reflexivity|exact Hin].
      * right. exists (name, NDir sub). split; [exact Hin|].
        rewrite Forall_forall in IH. apply (IH _ Hin). cbn [fst snd].
        exists rel. split; [symmetry; apply append_assoc3|exact Hsub].
Qed.

Lemma walk_length node : forall prefix,
  length (walk prefix node)
  = match node with NFile _ => 0 | NDir _ => count_files node end.
Proof.
  induction node as [c|entries IH] using Node_rect_nested; intros prefix; [reflexivity|].
  cbn [walk count_files]. rewrite length_app.
  induction entries as [|[name child] rest IHrest]; [reflexivity|].
  apply Forall_cons in IH as [Hchild Hrest]. specialize (IHrest Hrest).
  cbn [fst snd] in Hchild.
  cbn [files_of omap list_omap flat_map map list_sum fst snd].
  fold (files_of prefix rest). rewrite length_app, (Hchild (prefix ++ name ++ "/")%string).
  destruct child as [c|sub]; cbn [length count_files list_sum fold_right];
    unfold list_sum in IHrest; lia.
Qed.

(** X20: [_collect_files] returns nothing for a path where nothing exists or
    where a regular file lies; for a directory it returns exactly the regular
    files of the tree below it, one entry per file, each under its path
    relative to the directory (the names from the directory down, joined by
    [/]) with the bytes of that file. *)
Theorem collect_files_returns_the_tree entries path content :
  _collect_files None = []
  /\ (forall bytes_of_file, _collect_files (Some (NFile bytes_of_file)) = [])
  /\ ({| fd_relative_path := path; fd_content := content |}
        ∈ _collect_files (Some (NDir entries))
      <-> file_at (NDir entries) path content)
  /\ length (_collect_files (Some (NDir entries))) = count_files (NDir entries).
Proof.
  split; [reflexivity|]. split; [reflexivity|]. split.
  - unfold _collect_files. rewrite walk_member. split.
    + intros (relative & -> & Hat). exact Hat.
    + intros Hat. exists path. split; [reflexivity|exact Hat].
  - unfold _collect_files. apply (walk_length (NDir entries)).
Qed.
